(** * fm40-updater: the per-pixel transforms and the combine sweep

    A shallow embedding of [fm40_updater/dist.py], [fm40_updater/fm40_updater.py]
    and [fm40_updater/utils.py].

    Python integers are unbounded, so pixel codes and years are [Z]; the
    fixed-width casts of numpy ([astype]) are written out where the source
    performs them.  Python dictionaries are [gmap]s, except the severity map
    whose insertion order drives [np.select] and is therefore an association
    list.  A numpy 2-D window buffer is a list of rows.

    The files on disk, the destinations that cannot be written and the lines
    printed are an explicit [World] threaded through the sweeps; a call
    returns a value or raises.  What rasterio's [WarpedVRT] returns for a
    window is a parameter: the program never looks inside it. *)

From stdpp Require Import gmap strings list fin_maps.
From Stdlib Require Import ZArith Lia.

Local Open Scope Z_scope.

(** ** Python outcomes: a call returns a value or raises *)

Module Py.

Inductive exn : Type :=
| ValueError
| TypeError
| IndexError
| RasterioIOError (path : string).

Inductive outcome (A : Type) : Type :=
| Returned (a : A)
| Raised (e : exn).
Arguments Returned {A} a.
Arguments Raised {A} e.

Definition bind {A B} (m : outcome A) (k : A -> outcome B) : outcome B :=
  match m with
  | Returned a => k a
  | Raised e => Raised e
  end.

Fixpoint mapM {A B} (f : A -> outcome B) (l : list A) : outcome (list B) :=
  match l with
  | [] => Returned []
  | a :: l' => bind (f a) (fun b => bind (mapM f l') (fun bs => Returned (b :: bs)))
  end.

(** A value an expression of this program evaluates to: an integer, a
    float holding an integral value (rasterio reports a declared nodata as
    a float), or [None]. *)
Inductive pyobj : Type :=
| PyInt (n : Z)
| PyFloat (x : Z)
| PyNone.

(** [a == b] and [a <= b] between numbers compare their values, whatever
    mix of int and float; [None] equals only [None] and is never [<=]. *)
Definition py_eq (a b : pyobj) : bool :=
  match a, b with
  | PyNone, PyNone => true
  | PyNone, _ | _, PyNone => false
  | (PyInt x | PyFloat x), (PyInt y | PyFloat y) => x =? y
  end.

(** [int(v)], which numpy applies when it stores an object in an integer
    array: [int(None)] raises [TypeError]. *)
Definition int_of (v : pyobj) : outcome Z :=
  match v with
  | PyInt n => Returned n
  | PyFloat x => Returned x
  | PyNone => Raised TypeError
  end.

End Py.

Import Py.

Notation "x <- m ;; k" := (Py.bind m (fun x => k))
  (at level 100, m at next level, right associativity, only parsing).

(** ** rasterio: datasets, windows, and the files of the world *)

Module Rasterio.

Inductive dtype : Type := uint8 | uint16 | int16 | int32.

(** [.astype(dt)] of an integer: the value modulo the width, signed or not. *)
Definition astype (dt : dtype) (z : Z) : Z :=
  match dt with
  | uint8 => z mod 256
  | uint16 => z mod 65536
  | int16 => (z + 32768) mod 65536 - 32768
  | int32 => (z + 2147483648) mod 4294967296 - 2147483648
  end.

Record Window : Type := mkWindow
  { col_off : nat; row_off : nat; win_width : nat; win_height : nat }.

(** [read(1, window=w)] on a band held as a list of rows; a window that
    reaches past the band is clipped to it. *)
Definition read_window (band : list (list Z)) (w : Window) : list (list Z) :=
  map (fun row => take (win_width w) (drop (col_off w) row))
      (take (win_height w) (drop (row_off w) band)).

Definition in_window (w : Window) (r c : nat) : bool :=
  (bool_decide (row_off w <= r < row_off w + win_height w)%nat)
  && (bool_decide (col_off w <= c < col_off w + win_width w)%nat).

(** [write(buf, 1, window=w)]: the pixels of [buf] replace those of the
    window, the rest of the band is kept. *)
Definition write_window (band : list (list Z)) (w : Window) (buf : list (list Z))
    : list (list Z) :=
  imap (fun r row =>
          imap (fun c old =>
                  if in_window w r c
                  then default old (buf !! (r - row_off w)%nat
                                      ≫= (fun brow => brow !! (c - col_off w)%nat))
                  else old) row) band.

Section Grid.
Context {CRS Affine : Type}.

(** The [profile] of a dataset: what the program reads from it and
    passes on when it creates an output. *)
Record Profile : Type := mkProfile
  { crs : CRS;
    transform : Affine;
    width : nat;
    height : nat;
    dtype_of : dtype;
    nodata : option Z;
    block_windows : list Window }.

Record Dataset : Type := mkDataset
  { profile : Profile;
    band : list (list Z) }.

Definition shape (ds : Dataset) : nat * nat := (height (profile ds), width (profile ds)).

(** [WarpedVRT(dst, crs=, transform=, width=, height=,
    resampling=Resampling.nearest, nodata=)]. *)
Record WarpedVRT : Type := mkWarpedVRT
  { vrt_source : Dataset;
    vrt_crs : CRS;
    vrt_transform : Affine;
    vrt_width : nat;
    vrt_height : nat;
    vrt_nodata : Z }.

(** What a sweep reads disturbance or severity pixels from: an opened
    file, or a warped view of one. *)
Inductive Source : Type :=
| Direct (ds : Dataset)
| Warped (vrt : WarpedVRT).

Inductive Msg : Type :=
| MsgElapsed (func : string)
| MsgStaleFire (fire_year effective_year : Z)
| MsgCreatedDist (path : string)
| MsgNoInputs
| MsgCombining (n : nat) (path : string)
| MsgTrouble (path : string) (e : exn)
| MsgCreatedCombined (path : string).

Record World : Type := mkWorld
  { files : gmap string Dataset;
    unwritable : gset string;
    stdout : list Msg }.

(** A step of a sweep: it changes the world and returns or raises. *)
Definition IO (A : Type) : Type := World -> World * outcome A.

Definition ret {A} (a : A) : IO A := fun w => (w, Returned a).
Definition raise {A} (e : exn) : IO A := fun w => (w, Raised e).
Definition bindIO {A B} (m : IO A) (k : A -> IO B) : IO B :=
  fun w => match m w with
           | (w', Returned a) => k a w'
           | (w', Raised e) => (w', Raised e)
           end.

(** A computation that does not touch the world. *)
Definition lift {A} (o : outcome A) : IO A := fun w => (w, o).

(** [try: body except Exception as e: handler(e)] *)
Definition try_except (body : IO unit) (handler : exn -> IO unit) : IO unit :=
  fun w => match body w with
           | (w', Returned tt) => (w', Returned tt)
           | (w', Raised e) => handler e w'
           end.

Fixpoint for_each {A} (l : list A) (body : A -> IO unit) : IO unit :=
  match l with
  | [] => ret tt
  | a :: l' => bindIO (body a) (fun _ => for_each l' body)
  end.

Fixpoint mapIO {A B} (f : A -> IO B) (l : list A) : IO (list B) :=
  match l with
  | [] => ret []
  | a :: l' => bindIO (f a) (fun b => bindIO (mapIO f l') (fun bs => ret (b :: bs)))
  end.

Definition print (m : Msg) : IO unit :=
  fun w => (mkWorld (files w) (unwritable w) (stdout w ++ [m]), Returned tt).

(** [rasterio.open(path)]: the dataset as it is on disk at that moment;
    a missing file raises, naming the path. *)
Definition rasterio_open (path : string) : IO Dataset :=
  fun w => match files w !! path with
           | Some ds => (w, Returned ds)
           | None => (w, Raised (RasterioIOError path))
           end.

(** [rasterio.open(path, 'w', **profile)]: a destination that cannot be
    written raises, naming the path; otherwise the file is created, every
    pixel reading as the profile's nodata (0 when it declares none). *)
Definition rasterio_open_w (path : string) (p : Profile) : IO unit :=
  fun w => if bool_decide (path ∈ unwritable w)
           then (w, Raised (RasterioIOError path))
           else
             let blank := replicate (height p) (replicate (width p) (default 0 (nodata p))) in
             (mkWorld (<[path := mkDataset p blank]> (files w)) (unwritable w) (stdout w),
              Returned tt).

(** [dst.write(buf, 1, window=window)] on the file opened at [path]. *)
Definition dataset_write (path : string) (window : Window) (buf : list (list Z)) : IO unit :=
  fun w => (mkWorld (alter (fun ds => mkDataset (profile ds) (write_window (band ds) window buf))
                           path (files w))
                    (unwritable w) (stdout w),
            Returned tt).

End Grid.

Arguments Profile : clear implicits.
Arguments Dataset : clear implicits.
Arguments WarpedVRT : clear implicits.
Arguments Source : clear implicits.
Arguments World : clear implicits.
Arguments IO : clear implicits.

End Rasterio.

Import Rasterio.

Notation "x <-- m ;;; k" := (Rasterio.bindIO m (fun x => k))
  (at level 100, m at next level, right associativity, only parsing).
Notation "m ;;; k" := (Rasterio.bindIO m (fun _ => k))
  (at level 100, right associativity, only parsing).

(** ** utils.py *)

Module Utils.
Section Grid.
Context {CRS Affine : Type}.

(** [time_function]: the wrapper runs the function, prints the elapsed
    time and returns the result; an exception passes through before the
    print.  The duration itself is not modelled. *)
Definition time_function {A} (name : string) (func : IO CRS Affine A) : IO CRS Affine A :=
  result <-- func ;;;
  print (MsgElapsed name) ;;;
  ret result.

(** [aligned_vrt(src, dst)]: [dst] seen on the grid of [src]. *)
Definition aligned_vrt (src dst : Dataset CRS Affine) : WarpedVRT CRS Affine :=
  let dist_nodata := default 0 (nodata (profile src)) in
  mkWarpedVRT dst
              (crs (profile src))
              (transform (profile src))
              (width (profile src))
              (height (profile src))
              dist_nodata.

End Grid.
End Utils.

Import Utils.

(** ** dist.py *)

Module Dist.

(** [DIST_IMPACT_RANKING]: lower rank = more impactful. *)
Definition DIST_IMPACT_RANKING : gmap Z Z :=
  list_to_map
    [ (131, 1); (132, 2); (133, 3);
      (121, 4); (122, 5); (123, 6);
      (111, 7); (112, 8); (113, 9) ].

Definition DEFAULT_RANK : Z := 99.

(** [bs_to_dist_sev_map], in insertion order. *)
Definition bs_to_dist_sev_map : list (Z * Z) :=
  [ (5, 1); (4, 3); (3, 2); (2, 1); (1, 1) ].

(** [d.get(k)] on a dictionary kept in insertion order. *)
Fixpoint dict_get (k : Z) (d : list (Z * Z)) : option Z :=
  match d with
  | [] => None
  | (k', v) :: d' => if k =? k' then Some v else dict_get k d'
  end.

(** The severity code of a burn-severity class: [bs_to_dist_sev_map.get(v)]. *)
Definition severityCode (v : Z) : option Z := dict_get v bs_to_dist_sev_map.

(** A valid disturbance code is a key of [DIST_IMPACT_RANKING]. *)
Definition valid_dist_code (c : Z) : Prop := is_Some (DIST_IMPACT_RANKING !! c).

(** The nodata of a DIST raster ([nodata=0] in the output profile). *)
Definition dist_nodata : Z := 0.

(** *** convert_bs_to_dist *)

(** Lines 75-87: the time code of [years_since_fire]; [None] is Python's
    [None]. *)
Definition time_code_of (years_since_fire : Z) : option Z :=
  if years_since_fire <? 1 then Some 1
  else if (1 <=? years_since_fire) && (years_since_fire <=? 5) then Some 2
  else if (5 <? years_since_fire) && (years_since_fire <=? 10) then Some 3
  else None.

(** Lines 62-87: input validation, then the time code (the warning of
    line 86 is printed by the sweep below, when the code is [None]). *)
Definition get_time_code (fire_year effective_year : Z) : outcome (option Z) :=
  if effective_year <? fire_year then Raised ValueError
  else Returned (time_code_of (effective_year - fire_year)).

(** [np.select(condlist, choicelist, default)] at one pixel: the choice of
    the first condition that holds. *)
Fixpoint np_select (condlist : list bool) (choicelist : list Z) (default : Z) : Z :=
  match condlist, choicelist with
  | c :: cs, x :: xs => if c then x else np_select cs xs default
  | _, _ => default
  end.

(** Lines 111-129 at one pixel of [bs_data]. *)
Definition dist_pixel (time_code : option Z) (bs : Z) : Z :=
  match time_code with
  | None => dist_nodata
  | Some tc =>
      let conditions := map (fun kv => bs =? fst kv) bs_to_dist_sev_map in
      let choices := map (fun kv => 100 + (snd kv * 10) + tc) bs_to_dist_sev_map in
      astype uint16 (np_select conditions choices dist_nodata)
  end.

(** Lines 111-129 on a window buffer. *)
Definition dist_data (time_code : option Z) (bs_data : list (list Z)) : list (list Z) :=
  map (map (dist_pixel time_code)) bs_data.

(** *** combine_dist_rasters, at one pixel *)

(** [DIST_IMPACT_RANKING.get(code, DEFAULT_RANK)] *)
Definition impact_rank (code : Z) : Z := default DEFAULT_RANK (DIST_IMPACT_RANKING !! code).

Fixpoint argmin_from (best_idx : nat) (best : Z) (idx : nat) (l : list Z) : nat :=
  match l with
  | [] => best_idx
  | x :: l' => if x <? best then argmin_from idx x (S idx) l'
               else argmin_from best_idx best (S idx) l'
  end.

(** [np.argmin] along the stack: the index of the first occurrence of the
    minimum; an empty sequence raises. *)
Definition np_argmin (l : list Z) : outcome nat :=
  match l with
  | [] => Raised ValueError
  | x :: l' => Returned (argmin_from 0 x 1 l')
  end.

(** Lines 184-194 at one pixel: [stack] holds the codes of the N rasters
    there, in the order of [dist_raster_paths]. *)
Definition combine_pixel (nodata_val : Z) (stack : list Z) : outcome Z :=
  let impact_ranks := map impact_rank stack in
  min_rank_idx <- np_argmin impact_ranks ;;
  match stack !! min_rank_idx with
  | None => Raised IndexError
  | Some final =>
      let nodata_mask := map (fun c => c =? nodata_val) stack in
      Returned (if forallb id nodata_mask then nodata_val else final)
  end.

(** [np.array([...])] of the windows read: they must have one shape. *)
Definition np_array (arrays : list (list (list Z))) : outcome (list (list (list Z))) :=
  match arrays with
  | [] => Returned []
  | a :: rest =>
      if forallb (fun b => bool_decide (map length b = map length a)) rest
      then Returned arrays else Raised ValueError
  end.

Definition pixel_stack (all_data : list (list (list Z))) (r c : nat) : list Z :=
  omap (fun arr => arr !! r ≫= (fun row => row !! c)) all_data.

(** Lines 181-194 on the windows read from all rasters; [np.vectorize]
    refuses an input of size 0. *)
Definition combine_chunk (nodata_val : Z) (windows : list (list (list Z)))
    : outcome (list (list Z)) :=
  all_data <- np_array windows ;;
  match all_data with
  | [] => Raised ValueError
  | first :: _ =>
      if bool_decide (concat first = []) then Raised ValueError
      else
        mapM (fun r =>
                mapM (fun c => combine_pixel nodata_val (pixel_stack all_data r c))
                     (seq 0 (length (default [] (first !! r)))))
             (seq 0 (length first))
  end.

Section Sweeps.
Context {CRS Affine : Type}.
(** What rasterio returns for a window of a warped view, and the view's
    block windows. *)
Variable warped_read : WarpedVRT CRS Affine -> Window -> list (list Z).
Variable warped_block_windows : WarpedVRT CRS Affine -> list Window.

(** [aligned_src.profile] *)
Definition vrt_profile (vrt : WarpedVRT CRS Affine) : Profile CRS Affine :=
  mkProfile (vrt_crs vrt) (vrt_transform vrt) (vrt_width vrt) (vrt_height vrt)
            (dtype_of (profile (vrt_source vrt)))
            (Some (vrt_nodata vrt))
            (warped_block_windows vrt).

(** The source the burn-severity pixels are read from (lines 90-94). *)
Definition convert_source (alignment_src src : Dataset CRS Affine) : Source CRS Affine :=
  Warped (aligned_vrt alignment_src src).

(** Lines 62-138, the function under its decorator.  The datasets opened
    for reading are read as they were when opened. *)
Definition convert_bs_to_dist_body
    (bs_raster_path : string) (fire_year effective_year : Z)
    (output_dist_path align_to : string) : IO CRS Affine string :=
  time_code <-- lift (get_time_code fire_year effective_year) ;;;
  (match time_code with
   | None => print (MsgStaleFire fire_year effective_year)
   | Some _ => ret tt
   end) ;;;
  src <-- rasterio_open bs_raster_path ;;;
  alignment_src <-- rasterio_open align_to ;;;
  let aligned_src := aligned_vrt alignment_src src in
  let p := vrt_profile aligned_src in
  let p := mkProfile (crs p) (transform p) (width p) (height p)
                     uint16 (Some dist_nodata) (block_windows p) in
  rasterio_open_w output_dist_path p ;;;
  for_each (warped_block_windows aligned_src)
           (fun window =>
              let bs_data := warped_read aligned_src window in
              dataset_write output_dist_path window (dist_data time_code bs_data)) ;;;
  print (MsgCreatedDist output_dist_path) ;;;
  ret output_dist_path.

Definition convert_bs_to_dist
    (bs_raster_path : string) (fire_year effective_year : Z)
    (output_dist_path align_to : string) : IO CRS Affine string :=
  time_function "convert_bs_to_dist"
    (convert_bs_to_dist_body bs_raster_path fire_year effective_year
                             output_dist_path align_to).

(** Lines 168-197: what the [try] block runs. *)
Definition combine_sweep (src_files : list (Dataset CRS Affine)) (output_path : string)
    : IO CRS Affine unit :=
  match src_files with
  | [] => raise IndexError
  | first :: _ =>
      let p := profile first in
      let nodata_val := default 0 (nodata p) in
      rasterio_open_w output_path p ;;;
      for_each (block_windows p)
               (fun window =>
                  let windows := map (fun src => read_window (band src) window) src_files in
                  final_chunk <-- lift (combine_chunk nodata_val windows) ;;;
                  dataset_write output_path window
                                (map (map (astype (dtype_of p))) final_chunk))
  end.

(** Lines 159-206, the function under its decorator.  The inputs are opened
    before the [try]; the two last lines run whether or not the [except]
    clause did.  The value returned is [Some path], or [None] for Python's
    [None]. *)
Definition combine_dist_rasters_body (dist_raster_paths : list string) (output_path : string)
    : IO CRS Affine (option string) :=
  match dist_raster_paths with
  | [] => print MsgNoInputs ;;; ret None
  | _ :: _ =>
      print (MsgCombining (length dist_raster_paths) output_path) ;;;
      src_files <-- mapIO rasterio_open dist_raster_paths ;;;
      try_except (combine_sweep src_files output_path)
                 (fun e => print (MsgTrouble output_path e)) ;;;
      print (MsgCreatedCombined output_path) ;;;
      ret (Some output_path)
  end.

Definition combine_dist_rasters (dist_raster_paths : list string) (output_path : string)
    : IO CRS Affine (option string) :=
  time_function "combine_dist_rasters"
    (combine_dist_rasters_body dist_raster_paths output_path).

End Sweeps.

End Dist.

(** ** fm40_updater.py *)

Module Fm40Updater.

(** [src.nodata if src.nodata is not None else 0]: the declared nodata is
    a float, the fallback the integer 0. *)
Definition nodata_or_zero (declared : option Z) : pyobj :=
  match declared with
  | Some x => PyFloat x
  | None => PyInt 0
  end.

Section Lookup.
Variable dist_nodata fm40_nodata : pyobj.
(** The expanded ruleset: a pair maps to a new code, or to [None] for
    'no change'. *)
Variable update_rules : gmap (Z * Z) (option Z).

(** [update_rules.get(key)]: no default is given, so a missing key
    yields [None], as does a key stored with [None]. *)
Definition rules_get (key : Z * Z) : pyobj :=
  match update_rules !! key with
  | Some (Some new_code) => PyInt new_code
  | Some None => PyNone
  | None => PyNone
  end.

(** Lines 72-82. *)
Definition get_new_fm40 (d_code o_code : Z) : pyobj :=
  let both_nodata := py_eq (PyInt d_code) dist_nodata && py_eq (PyInt o_code) fm40_nodata in
  let no_dist := py_eq (PyInt d_code) dist_nodata in
  let nonburnable := o_code <=? 100 in
  if both_nodata then fm40_nodata
  else if no_dist || nonburnable then PyInt o_code
  else rules_get (d_code, o_code).

(** An int16 pixel holding [v]; what a value outside int16 becomes is
    left open ([None]). *)
Definition int16_cell (v : Z) : option Z :=
  if (-32768 <=? v) && (v <=? 32767) then Some v else None.

(** Lines 84-87 on a chunk given as the pairs [(d_code, o_code)] of its
    pixels.  [np.vectorize] takes the output dtype from the result at
    the first pixel, converts every result to it and line 87 casts to
    int16: with an integer dtype a [None] among the results raises
    [TypeError]; when the first result is [None] the dtype is [object]
    and the cast raises at that first element; with a float dtype a
    [None] becomes NaN, whose int16 cast numpy leaves open. *)
Definition updated_fm40_chunk (pixels : list (list (Z * Z)))
    : outcome (list (list (option Z))) :=
  let results := map (map (fun '(d_code, o_code) => get_new_fm40 d_code o_code)) pixels in
  match concat results with
  | [] => Raised ValueError
  | PyNone :: _ => Raised TypeError
  | PyFloat _ :: _ =>
      Returned (map (map (fun v => match v with
                                   | PyNone => None
                                   | PyInt n | PyFloat n => int16_cell n
                                   end)) results)
  | PyInt _ :: _ =>
      mapM (mapM (fun v => n <- int_of v ;; Returned (int16_cell n))) results
  end.

End Lookup.

Section Alignment.
Context {CRS Affine : Type} `{EqDecision CRS} `{EqDecision Affine}.
Variable warped_read : WarpedVRT CRS Affine -> Window -> list (list Z).

(** Lines 51-55. *)
Definition needs_alignment (src_dist src_fm40 : Dataset CRS Affine) : bool :=
  bool_decide (crs (profile src_dist) ≠ crs (profile src_fm40))
  || bool_decide (transform (profile src_dist) ≠ transform (profile src_fm40))
  || bool_decide (shape src_dist ≠ shape src_fm40).

(** Line 58. *)
Definition dist_src (src_fm40 src_dist : Dataset CRS Affine) : Source CRS Affine :=
  if needs_alignment src_dist src_fm40
  then Warped (aligned_vrt src_fm40 src_dist)
  else Direct src_dist.

(** [source.read(1, window=window)] *)
Definition source_read (s : Source CRS Affine) (window : Window) : list (list Z) :=
  match s with
  | Direct ds => read_window (band ds) window
  | Warped vrt => warped_read vrt window
  end.

End Alignment.

End Fm40Updater.

(** ** A small world used to run the definitions *)

Module Example.

(** A 2x2 grid stored as two one-row blocks. *)
Definition grid : Profile string (list Z) :=
  mkProfile "EPSG:5070" [30; 0; 0; 0; -30; 0] 2 2 uint16 (Some 0)
            [mkWindow 0 0 2 1; mkWindow 0 1 2 1].

Definition fm40 : Dataset string (list Z) :=
  mkDataset (mkProfile (crs grid) (transform grid) 2 2 int16 (Some (-9999))
                       (block_windows grid))
            [[165; 91]; [-9999; 102]].

Definition bs_2007 : Dataset string (list Z) :=
  mkDataset (mkProfile (crs grid) (transform grid) 2 2 uint8 (Some 0) (block_windows grid))
            [[4; 3]; [0; 2]].

Definition dist_2017 : Dataset string (list Z) := mkDataset grid [[122; 0]; [0; 113]].

Definition world : World string (list Z) :=
  mkWorld {[ "fm40.tif" := fm40; "bs_2007.tif" := bs_2007; "dist_2017.tif" := dist_2017 ]}
          {[ "readonly/combined.tif" ]}
          [].

(** A warp between grids that coincide, for running the conversion. *)
Definition same_grid_read (vrt : WarpedVRT string (list Z)) (window : Window) : list (list Z) :=
  read_window (band (vrt_source vrt)) window.

Definition same_grid_windows (vrt : WarpedVRT string (list Z)) : list Window :=
  block_windows (profile (vrt_source vrt)).

End Example.

(** ** utils.py: the ruleset *)

Module Ruleset.

(** One row of the ruleset as [iterrows] yields it.  [DIST_code] is the
    value of [int(row['DIST_code'])], [None] when that call raises (a blank
    or non-numeric cell); a class cell is its label, [None] when the cell is
    blank (NaN). *)
Record Row : Type := mkRow
  { DIST_code : option Z;
    original_FM40_code : option string;
    new_FM40_code : option string }.

Section Expand.
(** [ClassMap] of [fm40classes]: a class label to its numeric codes. *)
Variable ClassMap : gmap string (list Z).

(** [ClassMap.get(cell)] *)
Definition class_get (cell : option string) : option (list Z) :=
  cell ≫= (fun label => ClassMap !! label).

(** Lines 27-35: the new code of a row, [None] for 'no change'. *)
Definition row_new_code (row : Row) : option Z :=
  match new_FM40_code row with
  | None => None
  | Some _ =>
      match class_get (new_FM40_code row) with
      | Some (first :: _) => Some first
      | _ => None
      end
  end.

(** Lines 16-39: the body of the loop for one row. *)
Definition expand_row (update_rules : gmap (Z * Z) (option Z)) (row : Row)
    : outcome (gmap (Z * Z) (option Z)) :=
  match DIST_code row with
  | None => Raised ValueError
  | Some dist_code =>
      match class_get (original_FM40_code row) with
      | None | Some [] => Returned update_rules
      | Some original_fm40_codes =>
          let new_fm40_code := row_new_code row in
          Returned (foldl (fun rules original_code =>
                             <[(dist_code, original_code) := new_fm40_code]> rules)
                          update_rules original_fm40_codes)
      end
  end.

Fixpoint expand_rows (update_rules : gmap (Z * Z) (option Z)) (rules_df : list Row)
    : outcome (gmap (Z * Z) (option Z)) :=
  match rules_df with
  | [] => Returned update_rules
  | row :: rest =>
      update_rules' <- expand_row update_rules row ;;
      expand_rows update_rules' rest
  end.

(** [expand_ruleset], given what [pd.read_csv] did: any exception, the
    reader's or one raised in the loop, is caught and [None] is returned.
    The lines printed are left out. *)
Definition expand_ruleset (read_csv : outcome (list Row))
    : option (gmap (Z * Z) (option Z)) :=
  match read_csv with
  | Raised _ => None
  | Returned rules_df =>
      match expand_rows ∅ rules_df with
      | Returned update_rules => Some update_rules
      | Raised _ => None
      end
  end.

(** The row writes the key [(d_code, o_code)]. *)
Definition covers (row : Row) (d_code o_code : Z) : bool :=
  bool_decide (DIST_code row = Some d_code)
  && match class_get (original_FM40_code row) with
     | Some codes => bool_decide (o_code ∈ codes)
     | None => false
     end.

(** The last row of the ruleset that writes the key. *)
Definition last_cover (rules_df : list Row) (d_code o_code : Z) : option Row :=
  last (filter (fun row => covers row d_code o_code = true) rules_df).

End Expand.

End Ruleset.

(** ** Pixels of a band, and what the windows of a sweep cover *)

Module Tiles.

(** [band[r, c]] *)
Definition pixel_at (band : list (list Z)) (r c : nat) : option Z :=
  band !! r ≫= (fun row => row !! c).

(** The pixel lies in one of the windows. *)
Definition covered (windows : list Window) (r c : nat) : bool :=
  existsb (fun w => in_window w r c) windows.

(** The code [combine_pixel] gives at [(r, c)] to the windows read. *)
Definition merged_pixel (nodata_val : Z) (all_data : list (list (list Z))) (r c : nat) : Z :=
  match Dist.combine_pixel nodata_val (Dist.pixel_stack all_data r c) with
  | Returned code => code
  | Raised _ => nodata_val
  end.

(** The windows read have one shape and hold a pixel. *)
Definition chunk_ok (windows : list (list (list Z))) : Prop :=
  match windows with
  | [] => False
  | first :: rest =>
      Forall (fun b => map length b = map length first) rest /\ concat first <> []
  end.

(** A code a DIST raster is meant to hold: a key of the ranking, or the
    nodata 0. *)
Definition dist_code_or_nodata (v : Z) : Prop :=
  is_Some (Dist.DIST_IMPACT_RANKING !! v) \/ v = 0.

(** The band has [h] rows of [w] pixels. *)
Definition rectangular (h w : nat) (band : list (list Z)) : Prop :=
  length band = h /\ Forall (fun row => length row = w) band.

(** The window starts inside an [h] by [w] grid and is not empty. *)
Definition window_meets (h w : nat) (win : Window) : Prop :=
  (row_off win < h)%nat /\ (col_off win < w)%nat /\
  (0 < win_height win)%nat /\ (0 < win_width win)%nat.

End Tiles.

(** ** fm40_updater.py: reading the results of the lookup *)

Module Cells.

(** The number a result of [get_new_fm40] holds, if it is one. *)
Definition py_value (v : pyobj) : option Z :=
  match v with
  | PyInt n | PyFloat n => Some n
  | PyNone => None
  end.

(** The result of [get_new_fm40] at a pixel given as the pair
    [(d_code, o_code)]. *)
Definition lookup_pixel (dist_nodata fm40_nodata : pyobj)
    (update_rules : gmap (Z * Z) (option Z)) (pixel : Z * Z) : pyobj :=
  Fm40Updater.get_new_fm40 dist_nodata fm40_nodata update_rules (fst pixel) (snd pixel).

End Cells.

(** ** A small ruleset used to run the definitions *)

Module ExampleRules.
Import Ruleset.

Definition ClassMap : gmap string (list Z) :=
  {[ "GR" := [101; 102; 103]; "SH" := [141; 142]; "TU" := [161; 165]; "TL" := [181; 182] ]}.

(** The second row overrides the first; the third is a 'no change' row;
    the fourth names an original class [ClassMap] does not know. *)
Definition rules_df : list Row :=
  [ mkRow (Some 131) (Some "TU") (Some "GR");
    mkRow (Some 131) (Some "TU") (Some "SH");
    mkRow (Some 111) (Some "TL") None;
    mkRow (Some 121) (Some "XX") (Some "GR") ].

Definition update_rules : gmap (Z * Z) (option Z) :=
  default ∅ (expand_ruleset ClassMap (Returned rules_df)).

End ExampleRules.

(** ** main.py: the three steps of the script *)

Module Main.

(** What can stop the script: an unbound name, or an exception raised by
    one of the calls (or by the reading of the year, lines 96-100). *)
Inductive script_exn : Type :=
| NameError (name : string)
| FromCall (e : exn).

Inductive script_outcome : Type :=
| Done
| Failed (e : script_exn).

(** One burn-severity raster as step 1 sees it: its path, the year that
    lines 96-102 read from its name ([None] when they raise
    [ValueError]) and the path line 104 builds for its DIST raster. *)
Record Job : Type := mkJob
  { bs_path : string;
    fire_year : option Z;
    output_dist_path : string }.

Section Script.
Context {CRS Affine : Type}.
Variable warped_read : WarpedVRT CRS Affine -> Window -> list (list Z).
Variable warped_block_windows : WarpedVRT CRS Affine -> list Window.
(** [update_fm40_raster(original_fm40_path, dist_raster_path, ruleset_csv_path,
    output_fm40_path)]; the DIST path is [None] when [combine_dist_rasters]
    returned [None]. *)
Variable update_fm40_raster :
  string -> option string -> string -> string -> IO CRS Affine string.

(** [Path(path).exists()], the rasters of the world being the files. *)
Definition path_exists (path : string) (w : World CRS Affine) : bool :=
  bool_decide (is_Some (files w !! path)).

(** Lines 94-111.  The script prints one line of its own, 'Skipping
    creation of <path>: already exists.'; the paths so printed are
    collected in [skipped], apart from the lines the functions print. *)
Fixpoint step1 (jobs : list Job) (effective_year : Z) (input_fm40 : string)
    (dist_paths skipped : list string) (w : World CRS Affine)
    : World CRS Affine * list string * outcome (list string) :=
  match jobs with
  | [] => (w, skipped, Returned dist_paths)
  | job :: jobs' =>
      match fire_year job with
      | None => (w, skipped, Raised ValueError)
      | Some year =>
          if path_exists (output_dist_path job) w
          then step1 jobs' effective_year input_fm40
                     (dist_paths ++ [output_dist_path job])
                     (skipped ++ [output_dist_path job]) w
          else
            match Dist.convert_bs_to_dist warped_read warped_block_windows
                    (bs_path job) year effective_year (output_dist_path job) input_fm40 w with
            | (w', Raised e) => (w', skipped, Raised e)
            | (w', Returned dist_path) =>
                step1 jobs' effective_year input_fm40
                      (if bool_decide (dist_path = "") then dist_paths
                       else dist_paths ++ [dist_path])
                      skipped w'
            end
      end
  end.

(** Lines 113-119.  [combined_dist_raster] is bound only when the
    combination runs: [Returned None] leaves the name unbound. *)
Definition step2 (dist_paths : list string) (final_output_path : string)
    (skipped : list string) (w : World CRS Affine)
    : World CRS Affine * list string * outcome (option (option string)) :=
  if path_exists final_output_path w
  then (w, skipped ++ [final_output_path], Returned None)
  else match Dist.combine_dist_rasters dist_paths final_output_path w with
       | (w', Returned path) => (w', skipped, Returned (Some path))
       | (w', Raised e) => (w', skipped, Raised e)
       end.

(** Lines 121-126. *)
Definition step3 (input_fm40 ruleset updated_fm40_path : string)
    (combined_dist_raster : option (option string))
    (skipped : list string) (w : World CRS Affine)
    : World CRS Affine * list string * script_outcome :=
  if path_exists updated_fm40_path w
  then (w, skipped ++ [updated_fm40_path], Done)
  else
    match combined_dist_raster with
    | None => (w, skipped, Failed (NameError "combined_dist_raster"))
    | Some dist_raster_path =>
        match update_fm40_raster input_fm40 dist_raster_path ruleset updated_fm40_path w with
        | (w', Returned _) => (w', skipped, Done)
        | (w', Raised e) => (w', skipped, Failed (FromCall e))
        end
    end.

(** Lines 93-126: the three steps. *)
Definition main_steps (jobs : list Job) (effective_year : Z)
    (input_fm40 ruleset final_output_path updated_fm40_path : string)
    (w : World CRS Affine) : World CRS Affine * list string * script_outcome :=
  match step1 jobs effective_year input_fm40 [] [] w with
  | (w1, skipped1, Raised e) => (w1, skipped1, Failed (FromCall e))
  | (w1, skipped1, Returned dist_paths) =>
      match step2 dist_paths final_output_path skipped1 w1 with
      | (w2, skipped2, Raised e) => (w2, skipped2, Failed (FromCall e))
      | (w2, skipped2, Returned combined_dist_raster) =>
          step3 input_fm40 ruleset updated_fm40_path combined_dist_raster skipped2 w2
      end
  end.

End Script.

End Main.


(** A second run of the script over the example world: the DIST raster of
    the one job is there; the combined raster and the updated FM40 raster
    are added as the run needs them. *)
Module ExampleRun.
Import Main.

Definition jobs : list Job := [mkJob "bs_2017.tif" (Some 2017) "dist_2017.tif"].

Definition combined_world : World string (list Z) :=
  mkWorld (<["dist_combined_2018.tif" := Example.dist_2017]> (files Example.world))
          (unwritable Example.world) [].

Definition finished_world : World string (list Z) :=
  mkWorld (<["fm40_updated_2018.tif" := Example.fm40]> (files combined_world))
          (unwritable Example.world) [].

(** An update that only returns its output path, to run the script with. *)
Definition update_returns_path (original_fm40_path : string)
    (dist_raster_path : option string) (ruleset_csv_path output_fm40_path : string) :
    IO string (list Z) string :=
  ret output_fm40_path.

End ExampleRun.

(** * Properties *)

Module DistFacts.
Import Dist.

Lemma time_code_of_range d tc :
  time_code_of d = Some tc -> tc = 1 \/ tc = 2 \/ tc = 3.
Proof.
  unfold time_code_of.
  destruct (d <? 1); [intros [= <-]; auto|].
  destruct ((1 <=? d) && (d <=? 5)); [intros [= <-]; auto|].
  destruct ((5 <? d) && (d <=? 10)); [intros [= <-]; auto|].
  discriminate.
Qed.

Lemma severityCode_cases v sev :
  severityCode v = Some sev ->
  (v = 5 /\ sev = 1) \/ (v = 4 /\ sev = 3) \/ (v = 3 /\ sev = 2) \/
  (v = 2 /\ sev = 1) \/ (v = 1 /\ sev = 1).
Proof.
  unfold severityCode, bs_to_dist_sev_map, dict_get.
  destruct (Z.eqb_spec v 5) as [->|?]; [intros [= <-]; tauto|].
  destruct (Z.eqb_spec v 4) as [->|?]; [intros [= <-]; tauto|].
  destruct (Z.eqb_spec v 3) as [->|?]; [intros [= <-]; tauto|].
  destruct (Z.eqb_spec v 2) as [->|?]; [intros [= <-]; tauto|].
  destruct (Z.eqb_spec v 1) as [->|?]; [intros [= <-]; tauto|].
  discriminate.
Qed.

Lemma severityCode_None v :
  severityCode v = None -> v <> 5 /\ v <> 4 /\ v <> 3 /\ v <> 2 /\ v <> 1.
Proof.
  unfold severityCode, bs_to_dist_sev_map, dict_get.
  destruct (Z.eqb_spec v 5); [discriminate|].
  destruct (Z.eqb_spec v 4); [discriminate|].
  destruct (Z.eqb_spec v 3); [discriminate|].
  destruct (Z.eqb_spec v 2); [discriminate|].
  destruct (Z.eqb_spec v 1); [discriminate|].
  tauto.
Qed.

Lemma dist_pixel_key tc v sev :
  0 <= tc < 10 -> severityCode v = Some sev ->
  dist_pixel (Some tc) v = 100 + 10 * sev + tc.
Proof.
  intros Htc Hsev.
  destruct (severityCode_cases _ _ Hsev) as [[-> ->]|[[-> ->]|[[-> ->]|[[-> ->]|[-> ->]]]]];
    unfold dist_pixel, astype; simpl; apply Z.mod_small; lia.
Qed.

Lemma dist_pixel_other tc v :
  severityCode v = None -> dist_pixel (Some tc) v = dist_nodata.
Proof.
  intros (H5 & H4 & H3 & H2 & H1)%severityCode_None.
  unfold dist_pixel, bs_to_dist_sev_map; cbn [map fst snd np_select].
  destruct (Z.eqb_spec v 5); [lia|].
  destruct (Z.eqb_spec v 4); [lia|].
  destruct (Z.eqb_spec v 3); [lia|].
  destruct (Z.eqb_spec v 2); [lia|].
  destruct (Z.eqb_spec v 1); [lia|].
  reflexivity.
Qed.

(** *** The first minimum *)

Lemma argmin_from_spec (l pre : list Z) (bi : nat) (b : Z) :
  pre !! bi = Some b ->
  (forall j x, pre !! j = Some x -> b <= x) ->
  (forall j x, (j < bi)%nat -> pre !! j = Some x -> b < x) ->
  exists m,
    (pre ++ l) !! argmin_from bi b (length pre) l = Some m /\
    (forall j x, (pre ++ l) !! j = Some x -> m <= x) /\
    (forall j x, (j < argmin_from bi b (length pre) l)%nat ->
                 (pre ++ l) !! j = Some x -> m < x).
Proof.
  revert pre bi b.
  induction l as [|y l IH]; intros pre bi b Hbi Hmin Hfirst.
  - rewrite app_nil_r. simpl. eauto.
  - simpl. replace (pre ++ y :: l) with ((pre ++ [y]) ++ l)
      by (rewrite <- app_assoc; reflexivity).
    replace (S (length pre)) with (length (pre ++ [y]))
      by (rewrite length_app; simpl; lia).
    destruct (Z.ltb_spec y b) as [Hlt|Hge].
    + apply IH.
      * rewrite lookup_app_r by lia. now rewrite Nat.sub_diag.
      * intros j x Hj.
        apply lookup_app_Some in Hj as [Hj|[_ Hj]].
        -- specialize (Hmin _ _ Hj). lia.
        -- destruct (j - length pre)%nat; simpl in Hj; [|discriminate].
           injection Hj as <-. lia.
      * intros j x Hlen Hj.
        rewrite lookup_app_l in Hj by lia.
        specialize (Hmin _ _ Hj). lia.
    + apply IH.
      * apply lookup_app_l_Some. exact Hbi.
      * intros j x Hj.
        apply lookup_app_Some in Hj as [Hj|[_ Hj]].
        -- eauto.
        -- destruct (j - length pre)%nat; simpl in Hj; [|discriminate].
           injection Hj as <-. lia.
      * intros j x Hlen Hj.
        apply lookup_lt_Some in Hbi.
        rewrite lookup_app_l in Hj by lia. eauto.
Qed.

Lemma np_argmin_spec (l : list Z) :
  l <> [] ->
  exists i m,
    np_argmin l = Returned i /\ l !! i = Some m /\
    (forall j x, l !! j = Some x -> m <= x) /\
    (forall j x, (j < i)%nat -> l !! j = Some x -> m < x).
Proof.
  destruct l as [|y l]; [congruence|]. intros _.
  destruct (argmin_from_spec l [y] 0 y) as (m & Hm & Hle & Hlt).
  - reflexivity.
  - intros [|j] x; simpl; [intros [= <-]; lia|discriminate].
  - intros j x Hj; lia.
  - exists (argmin_from 0 y 1 l), m. simpl in *. auto.
Qed.

Lemma nodata_mask_all (nodata_val : Z) (stack : list Z) :
  forallb id (map (fun c => c =? nodata_val) stack) = true <->
  Forall (fun c => c = nodata_val) stack.
Proof.
  induction stack as [|c stack IH]; simpl.
  - split; auto.
  - rewrite andb_true_iff, IH, Forall_cons. unfold id.
    rewrite Z.eqb_eq. tauto.
Qed.

(** At a pixel, the all-nodata override changes nothing: the code at the
    first minimum of an all-nodata stack is the nodata itself. *)
Lemma combine_pixel_spec (nodata_val : Z) (stack : list Z) :
  stack <> [] ->
  exists i code,
    combine_pixel nodata_val stack = Returned code /\
    stack !! i = Some code /\
    (forall j c, stack !! j = Some c -> impact_rank code <= impact_rank c) /\
    (forall j c, (j < i)%nat -> stack !! j = Some c -> impact_rank code < impact_rank c).
Proof.
  intros Hne.
  destruct (np_argmin_spec (map impact_rank stack)) as (i & m & Harg & Hi & Hle & Hlt).
  { destruct stack; [congruence|discriminate]. }
  rewrite list_lookup_fmap in Hi.
  destruct (stack !! i) as [code|] eqn:Hcode; [|discriminate].
  injection Hi as <-.
  exists i, code. unfold combine_pixel. rewrite Harg. simpl. rewrite Hcode.
  split; [|split; [reflexivity|split]].
  - destruct (forallb id _) eqn:Hall; [|reflexivity].
    apply nodata_mask_all in Hall.
    rewrite Forall_lookup in Hall. now rewrite (Hall _ _ Hcode).
  - intros j c Hj. apply (Hle j). rewrite list_lookup_fmap, Hj. reflexivity.
  - intros j c Hji Hj. apply (Hlt j); [exact Hji|].
    rewrite list_lookup_fmap, Hj. reflexivity.
Qed.

Lemma impact_rank_absent (c : Z) :
  DIST_IMPACT_RANKING !! c = None -> impact_rank c = DEFAULT_RANK.
Proof. unfold impact_rank. now intros ->. Qed.

Lemma impact_rank_le_default (c : Z) : impact_rank c <= DEFAULT_RANK.
Proof.
  unfold impact_rank.
  destruct (DIST_IMPACT_RANKING !! c) as [r|] eqn:Hc; simpl; [|reflexivity].
  assert (Hall : map_Forall (fun _ r => r < DEFAULT_RANK) DIST_IMPACT_RANKING).
  { apply map_Forall_to_list. vm_compute. repeat constructor. }
  specialize (Hall _ _ Hc). simpl in Hall. lia.
Qed.

(** C3: for a valid pair of years ([fire_year <= effective_year]) the
    time code exists, and the pixel written for an input value [v] is
    nodata when the time code is [None], [100 + 10 * severityCode v + tc]
    when [v] is a key of the severity map \{5:1, 4:3, 3:2, 2:1, 1:1\}, and
    nodata for any other [v]; so it is always one of the nine keys of
    [DIST_IMPACT_RANKING] or nodata. *)
Theorem dist_pixel_is_code_or_nodata (fire_year effective_year v : Z) :
  fire_year <= effective_year ->
  exists time_code,
    get_time_code fire_year effective_year = Returned time_code /\
    (time_code = None -> dist_pixel time_code v = dist_nodata) /\
    (forall tc sev, time_code = Some tc -> severityCode v = Some sev ->
                    dist_pixel time_code v = 100 + 10 * sev + tc) /\
    (forall tc, time_code = Some tc -> severityCode v = None ->
                dist_pixel time_code v = dist_nodata) /\
    (bs_to_dist_sev_map = [(5, 1); (4, 3); (3, 2); (2, 1); (1, 1)]) /\
    (dist_pixel time_code v ∈ [111; 112; 113; 121; 122; 123; 131; 132; 133]
     /\ valid_dist_code (dist_pixel time_code v)
     \/ dist_pixel time_code v = dist_nodata).
Proof.
  intros Hle. unfold get_time_code.
  destruct (Z.ltb_spec effective_year fire_year) as [?|_]; [lia|].
  exists (time_code_of (effective_year - fire_year)).
  split; [reflexivity|].
  destruct (time_code_of (effective_year - fire_year)) as [tc|] eqn:Htc.
  - pose proof (time_code_of_range _ _ Htc) as Hrange.
    split; [discriminate|]. split.
    { intros tc' sev [= <-] Hsev. apply dist_pixel_key; [lia|exact Hsev]. }
    split.
    { intros tc' [= <-] Hsev. now apply dist_pixel_other. }
    split; [reflexivity|].
    destruct (severityCode v) as [sev|] eqn:Hsev.
    + left. rewrite (dist_pixel_key tc v sev) by (lia || exact Hsev).
      destruct (severityCode_cases _ _ Hsev)
        as [[-> ->]|[[-> ->]|[[-> ->]|[[-> ->]|[-> ->]]]]];
        destruct Hrange as [-> | [-> | ->]];
        (split; [set_solver|vm_compute; eauto]).
    + right. now apply dist_pixel_other.
  - split; [reflexivity|]. split; [discriminate|]. split; [discriminate|].
    split; [reflexivity|]. right. reflexivity.
Qed.

Lemma dist_pixel_is_code_or_nodata_witness :
  exists time_code,
    get_time_code 2016 2018 = Returned time_code /\
    (time_code = None -> dist_pixel time_code 4 = dist_nodata) /\
    (forall tc sev, time_code = Some tc -> severityCode 4 = Some sev ->
                    dist_pixel time_code 4 = 100 + 10 * sev + tc) /\
    (forall tc, time_code = Some tc -> severityCode 4 = None ->
                dist_pixel time_code 4 = dist_nodata) /\
    (bs_to_dist_sev_map = [(5, 1); (4, 3); (3, 2); (2, 1); (1, 1)]) /\
    (dist_pixel time_code 4 ∈ [111; 112; 113; 121; 122; 123; 131; 132; 133]
     /\ valid_dist_code (dist_pixel time_code 4)
     \/ dist_pixel time_code 4 = dist_nodata).
Proof. apply (dist_pixel_is_code_or_nodata 2016 2018 4). lia. Defined.

(** C4: on a non-empty stack, each code is ranked by [DIST_IMPACT_RANKING]
    (a code absent from it, such as nodata, gets the sentinel [DEFAULT_RANK],
    which no rank exceeds); the pixel takes the code at the first position
    whose rank is minimal.  [122; 0; 131] with nodata 0 gives 131, and
    [112; 112] gives 112. *)
Theorem combine_pixel_first_min_rank (nodata_val : Z) (stack : list Z) :
  stack <> [] ->
  (forall c, DIST_IMPACT_RANKING !! c = None -> impact_rank c = DEFAULT_RANK) /\
  (forall c r, DIST_IMPACT_RANKING !! c = Some r -> impact_rank c = r) /\
  (forall c, impact_rank c <= DEFAULT_RANK) /\
  impact_rank dist_nodata = DEFAULT_RANK /\
  (exists i code,
     combine_pixel nodata_val stack = Returned code /\
     stack !! i = Some code /\
     (forall j c, stack !! j = Some c -> impact_rank code <= impact_rank c) /\
     (forall j c, (j < i)%nat -> stack !! j = Some c -> impact_rank code < impact_rank c)) /\
  combine_pixel 0 [122; 0; 131] = Returned 131 /\
  combine_pixel nodata_val [112; 112] = Returned 112.
Proof.
  intros Hne.
  split; [exact impact_rank_absent|].
  split; [intros c r Hc; unfold impact_rank; now rewrite Hc|].
  split; [exact impact_rank_le_default|].
  split; [reflexivity|].
  split; [now apply combine_pixel_spec|].
  split; [reflexivity|].
  destruct (combine_pixel_spec nodata_val [112; 112]) as (i & code & Hrun & Hi & _);
    [discriminate|].
  rewrite Hrun. destruct i as [|[|i]]; simpl in Hi.
  - congruence.
  - congruence.
  - now rewrite lookup_nil in Hi.
Qed.

Lemma combine_pixel_first_min_rank_witness :
  exists i code,
    combine_pixel 0 [122; 0; 131] = Returned code /\
    [122; 0; 131] !! i = Some code /\
    (forall j c, [122; 0; 131] !! j = Some c -> impact_rank code <= impact_rank c) /\
    (forall j c, (j < i)%nat -> [122; 0; 131] !! j = Some c ->
                 impact_rank code < impact_rank c).
Proof.
  apply (combine_pixel_first_min_rank 0 [122; 0; 131]). discriminate.
Defined.

(** C5: when every code of a non-empty stack equals the nodata value, the
    pixel is that nodata value; [0; 0; 0] with nodata 0 gives 0. *)
Theorem combine_pixel_all_nodata (nodata_val : Z) (stack : list Z) :
  stack <> [] ->
  Forall (fun c => c = nodata_val) stack ->
  combine_pixel nodata_val stack = Returned nodata_val.
Proof.
  intros Hne Hall.
  destruct (np_argmin_spec (map impact_rank stack)) as (i & m & Harg & Hi & _).
  { destruct stack; [congruence|discriminate]. }
  rewrite list_lookup_fmap in Hi.
  destruct (stack !! i) as [code|] eqn:Hcode; [|discriminate].
  unfold combine_pixel. rewrite Harg. simpl. rewrite Hcode.
  apply nodata_mask_all in Hall. now rewrite Hall.
Qed.

Lemma combine_pixel_all_nodata_witness : combine_pixel 0 [0; 0; 0] = Returned 0.
Proof.
  apply (combine_pixel_all_nodata 0 [0; 0; 0]).
  - discriminate.
  - repeat constructor.
Defined.

End DistFacts.

(** ** The sweeps of dist.py on the world *)

Module SweepFacts.
Import Dist.

Lemma write_window_Forall (P : Z -> Prop) band w buf :
  Forall (Forall P) band -> Forall (Forall P) buf ->
  Forall (Forall P) (write_window band w buf).
Proof.
  intros Hband Hbuf. unfold write_window.
  apply Forall_lookup. intros r row' Hrow'.
  apply list_lookup_imap_Some in Hrow' as (row & Hrow & ->).
  pose proof (Forall_lookup_1 _ _ _ _ Hband Hrow) as HrowP.
  apply Forall_lookup. intros c v Hv.
  apply list_lookup_imap_Some in Hv as (old & Hold & ->).
  pose proof (Forall_lookup_1 _ _ _ _ HrowP Hold) as HoldP.
  destruct (in_window w r c); [|exact HoldP].
  destruct (buf !! (r - row_off w)%nat) as [brow|] eqn:Hbrow; simpl; [|exact HoldP].
  destruct (brow !! (c - col_off w)%nat) as [x|] eqn:Hx; simpl; [|exact HoldP].
  pose proof (Forall_lookup_1 _ _ _ _ Hbuf Hbrow) as HbrowP.
  exact (Forall_lookup_1 _ _ _ _ HbrowP Hx).
Qed.

Lemma dist_data_None bs_data :
  Forall (Forall (fun v => v = dist_nodata)) (dist_data None bs_data).
Proof.
  unfold dist_data. apply Forall_fmap, Forall_true. intros row.
  apply Forall_fmap, Forall_true. intros v. reflexivity.
Qed.

Section Sweeps.
Context {CRS Affine : Type}.
Variable warped_read : WarpedVRT CRS Affine -> Window -> list (list Z).
Variable warped_block_windows : WarpedVRT CRS Affine -> list Window.

Lemma bindIO_returned {A B} (m : IO CRS Affine A) (k : A -> IO CRS Affine B) w w' a :
  m w = (w', Returned a) -> bindIO m k w = k a w'.
Proof. intros H. unfold bindIO. now rewrite H. Qed.

Lemma bindIO_raised {A B} (m : IO CRS Affine A) (k : A -> IO CRS Affine B) w w' e :
  m w = (w', Raised e) -> bindIO m k w = (w', Raised e).
Proof. intros H. unfold bindIO. now rewrite H. Qed.

(** Writing window after window never raises, touches only the file at
    [path], and keeps any property that all buffers and the band had. *)
Lemma for_each_write (P : Z -> Prop) (path : string)
    (buf : Window -> list (list Z)) (windows : list Window) (w : World CRS Affine) :
  (forall window, Forall (Forall P) (buf window)) ->
  exists w',
    for_each windows (fun window => dataset_write path window (buf window)) w
      = (w', Returned tt) /\
    unwritable w' = unwritable w /\ stdout w' = stdout w /\
    (forall q, q <> path -> files w' !! q = files w !! q) /\
    (forall ds, files w !! path = Some ds ->
       exists ds', files w' !! path = Some ds' /\ profile ds' = profile ds /\
                   (Forall (Forall P) (band ds) -> Forall (Forall P) (band ds'))).
Proof.
  intros Hbuf. revert w.
  induction windows as [|window windows IH]; intros w.
  - exists w. simpl. unfold ret. repeat split; eauto.
  - simpl. unfold bindIO, dataset_write at 1.
    match goal with |- context [for_each windows ?f ?w1] =>
      destruct (IH w1) as (w' & Hrun & Hunw & Hout & Hother & Hpath) end.
    exists w'. rewrite Hrun. simpl in *.
    repeat split; auto.
    + intros q Hq. rewrite (Hother q Hq). now apply lookup_alter_ne.
    + intros ds Hds.
      destruct (Hpath (mkDataset (profile ds) (write_window (band ds) window (buf window))))
        as (ds' & Hds' & Hprof & Hband).
      { rewrite lookup_alter_eq, Hds. reflexivity. }
      exists ds'. repeat split; auto.
      intros HP. apply Hband. simpl. now apply write_window_Forall.
Qed.

(** What a run of the conversion does once the years are valid. *)
Lemma convert_bs_to_dist_body_run bs_raster_path fire_year effective_year
    output_dist_path align_to (w : World CRS Affine) time_code :
  get_time_code fire_year effective_year = Returned time_code ->
  let w0 := match time_code with
            | None => mkWorld (files w) (unwritable w)
                              (stdout w ++ [MsgStaleFire fire_year effective_year])
            | Some _ => w
            end in
  let run := convert_bs_to_dist_body warped_read warped_block_windows
               bs_raster_path fire_year effective_year output_dist_path align_to w in
  match files w !! bs_raster_path, files w !! align_to with
  | None, _ => run = (w0, Raised (RasterioIOError bs_raster_path))
  | Some _, None => run = (w0, Raised (RasterioIOError align_to))
  | Some _, Some _ =>
      if bool_decide (output_dist_path ∈ unwritable w)
      then run = (w0, Raised (RasterioIOError output_dist_path))
      else exists w' ds,
             run = (w', Returned output_dist_path) /\
             files w' !! output_dist_path = Some ds /\
             (forall q, q <> output_dist_path -> files w' !! q = files w !! q) /\
             (time_code = None ->
              Forall (Forall (fun v => v = dist_nodata)) (band ds))
  end.
Proof.
  intros Htc w0 run. subst run.
  unfold convert_bs_to_dist_body.
  rewrite (bindIO_returned _ _ w w time_code) by (unfold lift; now rewrite Htc).
  assert (Hw0 : (match time_code with
                 | None => print (MsgStaleFire fire_year effective_year)
                 | Some _ => ret tt
                 end) w = (w0, Returned tt)).
  { subst w0. destruct time_code; [|reflexivity]. unfold ret. now destruct w. }
  rewrite (bindIO_returned _ _ w w0 tt Hw0).
  assert (Hfiles : files w0 = files w) by (subst w0; now destruct time_code).
  assert (Hunw : unwritable w0 = unwritable w) by (subst w0; now destruct time_code).
  clearbody w0. clear Hw0.
  destruct (files w !! bs_raster_path) as [src|] eqn:Hsrc.
  2:{ apply bindIO_raised. unfold rasterio_open. now rewrite Hfiles, Hsrc. }
  rewrite (bindIO_returned _ _ w0 w0 src)
    by (unfold rasterio_open; now rewrite Hfiles, Hsrc).
  destruct (files w !! align_to) as [alignment_src|] eqn:Halign.
  2:{ apply bindIO_raised. unfold rasterio_open. now rewrite Hfiles, Halign. }
  rewrite (bindIO_returned _ _ w0 w0 alignment_src)
    by (unfold rasterio_open; now rewrite Hfiles, Halign).
  cbv zeta.
  destruct (bool_decide (output_dist_path ∈ unwritable w)) eqn:Hro.
  { rewrite <- Hunw in Hro.
    apply bindIO_raised. unfold rasterio_open_w. now rewrite Hro. }
  set (aligned_src := aligned_vrt alignment_src src).
  set (p := mkProfile _ _ _ _ uint16 _ _).
  set (blank := replicate (height p) (replicate (width p) dist_nodata)).
  set (w1 := mkWorld (<[output_dist_path := mkDataset p blank]> (files w0))
                     (unwritable w0) (stdout w0)).
  rewrite <- Hunw in Hro.
  rewrite (bindIO_returned _ _ w0 w1 tt)
    by (unfold rasterio_open_w; now rewrite Hro).
  set (P := fun v : Z => time_code = None -> v = dist_nodata).
  destruct (for_each_write P output_dist_path
              (fun window => dist_data time_code (warped_read aligned_src window))
              (warped_block_windows aligned_src) w1)
    as (w2 & Hrun & _ & _ & Hother & Hpath).
  { intros window. subst P.
    destruct time_code.
    - apply Forall_true. intros row. now apply Forall_true.
    - eapply Forall_impl; [apply dist_data_None|]. intros row Hrow.
      eapply Forall_impl; [exact Hrow|]. auto. }
  destruct (Hpath (mkDataset p blank)) as (ds & Hds & _ & Hband).
  { subst w1. simpl. apply lookup_insert_eq. }
  rewrite (bindIO_returned _ _ w1 w2 tt Hrun).
  exists (mkWorld (files w2) (unwritable w2) (stdout w2 ++ [MsgCreatedDist output_dist_path])), ds.
  split; [reflexivity|]. simpl. split; [exact Hds|]. split.
  - intros q Hq. rewrite (Hother q Hq). subst w1. simpl.
    rewrite lookup_insert_ne by congruence. now rewrite Hfiles.
  - intros Hnone.
    assert (HP : Forall (Forall P) (band ds)).
    { apply Hband. simpl. subst blank.
      apply Forall_replicate, Forall_replicate. now intros _. }
    eapply Forall_impl; [exact HP|]. intros row Hrow.
    eapply Forall_impl; [exact Hrow|]. intros v Hv. now apply Hv.
Qed.

Lemma time_function_returned {A} name (func : IO CRS Affine A) w w' a :
  func w = (w', Returned a) ->
  time_function name func w
    = (mkWorld (files w') (unwritable w') (stdout w' ++ [MsgElapsed name]), Returned a).
Proof.
  intros Hrun. unfold time_function.
  now rewrite (bindIO_returned _ _ w w' a Hrun).
Qed.

Lemma time_function_raised {A} name (func : IO CRS Affine A) w w' e :
  func w = (w', Raised e) -> time_function name func w = (w', Raised e).
Proof. intros Hrun. now apply bindIO_raised. Qed.

(** The conversion lets an I/O failure reach its caller, with the path. *)
Lemma convert_bs_to_dist_raises_io bs_raster_path fire_year effective_year
    output_dist_path align_to (w : World CRS Affine) :
  fire_year <= effective_year ->
  files w !! bs_raster_path = None \/ files w !! align_to = None
    \/ output_dist_path ∈ unwritable w ->
  exists w' path,
    convert_bs_to_dist warped_read warped_block_windows
      bs_raster_path fire_year effective_year output_dist_path align_to w
      = (w', Raised (RasterioIOError path)) /\
    files w' = files w /\
    (path = bs_raster_path \/ path = align_to \/ path = output_dist_path).
Proof.
  intros Hle Hfail.
  assert (Htc : get_time_code fire_year effective_year
                = Returned (time_code_of (effective_year - fire_year))).
  { unfold get_time_code. destruct (Z.ltb_spec effective_year fire_year); [lia|reflexivity]. }
  pose proof (convert_bs_to_dist_body_run bs_raster_path fire_year effective_year
                output_dist_path align_to w _ Htc) as Hrun.
  cbv zeta in Hrun.
  set (w0 := match time_code_of (effective_year - fire_year) with
             | Some _ => w | None => _ end) in Hrun.
  assert (Hfiles : files w0 = files w)
    by (subst w0; now destruct (time_code_of _)).
  exists w0. unfold convert_bs_to_dist.
  destruct (files w !! bs_raster_path) as [src|].
  - destruct (files w !! align_to) as [alignment_src|].
    + destruct Hfail as [?|[?|Hro]]; try discriminate.
      rewrite bool_decide_eq_true_2 in Hrun by exact Hro.
      exists output_dist_path. rewrite (time_function_raised _ _ _ _ _ Hrun). auto.
    + exists align_to. rewrite (time_function_raised _ _ _ _ _ Hrun). auto.
  - exists bs_raster_path. rewrite (time_function_raised _ _ _ _ _ Hrun). auto.
Qed.

(** C2: with [delta = effective_year - fire_year], the conversion raises
    [ValueError] exactly when [delta < 0]; otherwise the time code is 1
    when [delta < 1], 2 when [1 <= delta <= 5], 3 when [5 < delta <= 10],
    and [None] when [delta > 10], in which case a run whose files can be
    opened returns normally and leaves an output whose every pixel is
    nodata.  So 0 gives 1, 5 gives 2, 6 gives 3 and 11 gives [None]. *)
Theorem convert_time_code_by_delta (fire_year effective_year : Z) :
  let delta := effective_year - fire_year in
  (forall bs_raster_path output_dist_path align_to (w : World CRS Affine),
     snd (convert_bs_to_dist warped_read warped_block_windows
            bs_raster_path fire_year effective_year output_dist_path align_to w)
       = Raised ValueError <-> delta < 0) /\
  (get_time_code fire_year effective_year = Raised ValueError <-> delta < 0) /\
  (0 <= delta < 1 -> get_time_code fire_year effective_year = Returned (Some 1)) /\
  (1 <= delta <= 5 -> get_time_code fire_year effective_year = Returned (Some 2)) /\
  (5 < delta <= 10 -> get_time_code fire_year effective_year = Returned (Some 3)) /\
  (10 < delta ->
   get_time_code fire_year effective_year = Returned None /\
   forall bs_raster_path output_dist_path align_to (w : World CRS Affine),
     is_Some (files w !! bs_raster_path) ->
     is_Some (files w !! align_to) ->
     output_dist_path ∉ unwritable w ->
     exists w' ds,
       convert_bs_to_dist warped_read warped_block_windows
         bs_raster_path fire_year effective_year output_dist_path align_to w
         = (w', Returned output_dist_path) /\
       files w' !! output_dist_path = Some ds /\
       Forall (Forall (fun v => v = dist_nodata)) (band ds)) /\
  (delta = 0 -> get_time_code fire_year effective_year = Returned (Some 1)) /\
  (delta = 5 -> get_time_code fire_year effective_year = Returned (Some 2)) /\
  (delta = 6 -> get_time_code fire_year effective_year = Returned (Some 3)) /\
  (delta = 11 -> get_time_code fire_year effective_year = Returned None).
Proof.
  intros delta.
  assert (Hcode : forall tc,
             0 <= delta -> time_code_of delta = tc ->
             get_time_code fire_year effective_year = Returned tc).
  { intros tc Hpos <-. unfold get_time_code.
    destruct (Z.ltb_spec effective_year fire_year); [lia|reflexivity]. }
  assert (Hneg : delta < 0 -> get_time_code fire_year effective_year = Raised ValueError).
  { intros Hlt. unfold get_time_code.
    destruct (Z.ltb_spec effective_year fire_year); [reflexivity|lia]. }
  assert (H1 : 0 <= delta < 1 -> time_code_of delta = Some 1).
  { intros H. unfold time_code_of. destruct (Z.ltb_spec delta 1); [reflexivity|lia]. }
  assert (H2 : 1 <= delta <= 5 -> time_code_of delta = Some 2).
  { intros H. unfold time_code_of. destruct (Z.ltb_spec delta 1); [lia|].
    destruct (Z.leb_spec 1 delta); [|lia]. destruct (Z.leb_spec delta 5); [reflexivity|lia]. }
  assert (H3 : 5 < delta <= 10 -> time_code_of delta = Some 3).
  { intros H. unfold time_code_of. destruct (Z.ltb_spec delta 1); [lia|].
    destruct (Z.leb_spec 1 delta); [|lia]. destruct (Z.leb_spec delta 5); [lia|].
    destruct (Z.ltb_spec 5 delta); [|lia]. destruct (Z.leb_spec delta 10); [reflexivity|lia]. }
  assert (H4 : 10 < delta -> time_code_of delta = None).
  { intros H. unfold time_code_of. destruct (Z.ltb_spec delta 1); [lia|].
    destruct (Z.leb_spec 1 delta); [|lia]. destruct (Z.leb_spec delta 5); [lia|].
    destruct (Z.ltb_spec 5 delta); [|lia]. destruct (Z.leb_spec delta 10); [lia|reflexivity]. }
  repeat split.
  - intros Hraised. destruct (Z.lt_ge_cases delta 0) as [Hlt|Hge]; [exact Hlt|exfalso].
    pose proof (convert_bs_to_dist_body_run bs_raster_path fire_year effective_year
                  output_dist_path align_to w _ (Hcode _ Hge eq_refl)) as Hrun.
    cbv zeta in Hrun. unfold convert_bs_to_dist in Hraised.
    destruct (files w !! bs_raster_path);
      [destruct (files w !! align_to);
       [destruct (bool_decide (output_dist_path ∈ unwritable w))|]|].
    + rewrite (time_function_raised _ _ _ _ _ Hrun) in Hraised. discriminate.
    + destruct Hrun as (w' & ds & Hrun & _).
      rewrite (time_function_returned _ _ _ _ _ Hrun) in Hraised. discriminate.
    + rewrite (time_function_raised _ _ _ _ _ Hrun) in Hraised. discriminate.
    + rewrite (time_function_raised _ _ _ _ _ Hrun) in Hraised. discriminate.
  - intros Hlt. unfold convert_bs_to_dist.
    erewrite time_function_raised; [reflexivity|].
    unfold convert_bs_to_dist_body. apply bindIO_raised.
    unfold lift. now rewrite (Hneg Hlt).
  - intros Hraised. destruct (Z.lt_ge_cases delta 0) as [Hlt|Hge]; [exact Hlt|].
    rewrite (Hcode _ Hge eq_refl) in Hraised. discriminate.
  - exact Hneg.
  - intros H. apply Hcode; [lia|auto].
  - intros H. apply Hcode; [lia|auto].
  - intros H. apply Hcode; [lia|auto].
  - apply Hcode; [lia|auto].
  - intros bs_raster_path output_dist_path align_to w [src Hsrc] [al Hal] Hrw.
    pose proof (convert_bs_to_dist_body_run bs_raster_path fire_year effective_year
                  output_dist_path align_to w None) as Hrun.
    cbv zeta in Hrun. rewrite Hsrc, Hal in Hrun.
    rewrite bool_decide_eq_false_2 in Hrun by exact Hrw.
    destruct Hrun as (w' & ds & Hrun & Hds & _ & Hband); [apply Hcode; [lia|auto]|].
    eexists _, ds. unfold convert_bs_to_dist.
    rewrite (time_function_returned _ _ _ _ _ Hrun). simpl. auto.
  - intros H. apply Hcode; [lia|apply H1; lia].
  - intros H. apply Hcode; [lia|apply H2; lia].
  - intros H. apply Hcode; [lia|apply H3; lia].
  - intros H. apply Hcode; [lia|apply H4; lia].
Qed.

Lemma mapIO_rasterio_open (paths : list string) (w : World CRS Affine) :
  Forall (fun path => is_Some (files w !! path)) paths ->
  exists src_files,
    mapIO rasterio_open paths w = (w, Returned src_files) /\
    length src_files = length paths.
Proof.
  induction 1 as [|path paths [ds Hds] _ (src_files & Hrun & Hlen)].
  - now exists [].
  - exists (ds :: src_files). simpl.
    rewrite (bindIO_returned _ _ w w ds) by (unfold rasterio_open; now rewrite Hds).
    rewrite (bindIO_returned _ _ w w src_files Hrun).
    split; [reflexivity|]. simpl. now rewrite Hlen.
Qed.

(** When the inputs open but the destination cannot be written, the
    exception raised inside [try] is caught and printed, after which the
    function prints its success message and returns the path; no file
    has been created. *)
Lemma combine_dist_rasters_unwritable (dist_raster_paths : list string)
    (output_path : string) (w : World CRS Affine) :
  dist_raster_paths <> [] ->
  Forall (fun path => is_Some (files w !! path)) dist_raster_paths ->
  output_path ∈ unwritable w ->
  exists w',
    combine_dist_rasters dist_raster_paths output_path w
      = (w', Returned (Some output_path)) /\
    files w' = files w /\
    stdout w' = stdout w ++
                [ MsgCombining (length dist_raster_paths) output_path;
                  MsgTrouble output_path (RasterioIOError output_path);
                  MsgCreatedCombined output_path;
                  MsgElapsed "combine_dist_rasters" ].
Proof.
  intros Hne Hopen Hro.
  destruct dist_raster_paths as [|path paths]; [congruence|].
  set (w1 := mkWorld (files w) (unwritable w)
                     (stdout w ++ [MsgCombining (length (path :: paths)) output_path])).
  destruct (mapIO_rasterio_open (path :: paths) w1 Hopen) as (src_files & Hsrc & Hlen).
  destruct src_files as [|first src_files]; [discriminate|].
  eexists. unfold combine_dist_rasters.
  erewrite time_function_returned.
  2:{ unfold combine_dist_rasters_body.
      rewrite (bindIO_returned _ _ w w1 tt) by reflexivity.
      rewrite (bindIO_returned _ _ w1 w1 _ Hsrc).
      erewrite bindIO_returned.
      2:{ unfold try_except, combine_sweep.
          erewrite bindIO_raised; [reflexivity|].
          unfold rasterio_open_w. simpl.
          now rewrite bool_decide_eq_true_2 by exact Hro. }
      reflexivity. }
  simpl. split; [reflexivity|]. split; [reflexivity|].
  now rewrite <- !app_assoc.
Qed.

(** C10: called with no input path, [combine_dist_rasters] returns
    [None]; it raises nothing and the files are what they were. *)
Theorem combine_dist_rasters_no_inputs (output_path : string) (w : World CRS Affine) :
  exists w',
    combine_dist_rasters [] output_path w = (w', Returned None) /\
    files w' = files w /\
    stdout w' = stdout w ++ [MsgNoInputs; MsgElapsed "combine_dist_rasters"].
Proof.
  eexists. unfold combine_dist_rasters.
  erewrite time_function_returned by reflexivity.
  simpl. split; [reflexivity|]. split; [reflexivity|].
  now rewrite <- app_assoc.
Qed.

End Sweeps.

Import Example.

Lemma convert_time_code_by_delta_witness :
  get_time_code 2007 2018 = Returned None /\
  exists w' ds,
    convert_bs_to_dist same_grid_read same_grid_windows
      "bs_2007.tif" 2007 2018 "dist_2007.tif" "fm40.tif" world
      = (w', Returned "dist_2007.tif") /\
    files w' !! "dist_2007.tif" = Some ds /\
    Forall (Forall (fun v => v = dist_nodata)) (band ds).
Proof.
  pose proof (convert_time_code_by_delta same_grid_read same_grid_windows 2007 2018) as H.
  cbv zeta in H.
  destruct H as (_ & _ & _ & _ & _ & H & _).
  destruct H as [Hcode Hrun]; [lia|].
  split; [exact Hcode|].
  apply Hrun.
  - vm_compute. eauto.
  - vm_compute. eauto.
  - vm_compute. intros H. inversion H.
Defined.

(** C8, on the combine sweep: the input exists, the destination cannot be
    written.  The failure is caught inside the function: it prints the
    trouble, then its success message, and returns the path as if the
    raster had been created; the caller sees no exception. *)
Theorem combine_dist_rasters_hides_failed_write :
  exists w',
    combine_dist_rasters ["dist_2017.tif"] "readonly/combined.tif" world
      = (w', Returned (Some "readonly/combined.tif")) /\
    files w' !! "readonly/combined.tif" = None /\
    stdout w' = [ MsgCombining 1 "readonly/combined.tif";
                  MsgTrouble "readonly/combined.tif"
                             (RasterioIOError "readonly/combined.tif");
                  MsgCreatedCombined "readonly/combined.tif";
                  MsgElapsed "combine_dist_rasters" ].
Proof.
  eexists. split; [vm_compute; reflexivity|]. split; reflexivity.
Qed.

End SweepFacts.

(** ** fm40_updater.py: the lookup at a pixel and the choice of the DIST source *)

Module Fm40Facts.
Import Fm40Updater.

Section Lookup.
Variable dist_nodata fm40_nodata : pyobj.
Variable update_rules : gmap (Z * Z) (option Z).

(** Past the short-circuits the result is whatever [update_rules.get]
    yields. *)
Lemma get_new_fm40_lookup (d_code o_code : Z) :
  py_eq (PyInt d_code) dist_nodata = false -> 100 < o_code ->
  get_new_fm40 dist_nodata fm40_nodata update_rules d_code o_code
    = rules_get update_rules (d_code, o_code).
Proof.
  intros Hd Ho. unfold get_new_fm40. rewrite Hd. simpl.
  destruct (Z.leb_spec o_code 100); [lia|reflexivity].
Qed.

(** A pair mapped to a replacement code yields that code. *)
Lemma get_new_fm40_replacement (d_code o_code new_code : Z) :
  py_eq (PyInt d_code) dist_nodata = false -> 100 < o_code ->
  update_rules !! (d_code, o_code) = Some (Some new_code) ->
  get_new_fm40 dist_nodata fm40_nodata update_rules d_code o_code = PyInt new_code.
Proof.
  intros Hd Ho Hrule. rewrite get_new_fm40_lookup by assumption.
  unfold rules_get. now rewrite Hrule.
Qed.

(** A pair marked 'no change', or absent, yields [None], not [o_code]. *)
Lemma get_new_fm40_no_rule (d_code o_code : Z) :
  py_eq (PyInt d_code) dist_nodata = false -> 100 < o_code ->
  update_rules !! (d_code, o_code) = Some None \/ update_rules !! (d_code, o_code) = None ->
  get_new_fm40 dist_nodata fm40_nodata update_rules d_code o_code = PyNone.
Proof.
  intros Hd Ho Hrule. rewrite get_new_fm40_lookup by assumption.
  unfold rules_get. now destruct Hrule as [-> | ->].
Qed.

(** Whenever the lookup at the first pixel of a chunk yields [None], the
    conversion of the chunk raises. *)
Lemma updated_fm40_chunk_first_None (d_code o_code : Z) row rows :
  get_new_fm40 dist_nodata fm40_nodata update_rules d_code o_code = PyNone ->
  updated_fm40_chunk dist_nodata fm40_nodata update_rules (((d_code, o_code) :: row) :: rows)
    = Raised TypeError.
Proof. intros Hnone. unfold updated_fm40_chunk. simpl. now rewrite Hnone. Qed.

(** C6: the short-circuits in order.  When [d_code] equals the DIST
    nodata and [o_code] the FM40 nodata the result is the FM40 nodata;
    else when [d_code] equals the DIST nodata it is [o_code]; else when
    [o_code <= 100] it is [o_code], whatever [d_code] is. *)
Theorem get_new_fm40_short_circuits (d_code o_code : Z) :
  (py_eq (PyInt d_code) dist_nodata = true ->
   py_eq (PyInt o_code) fm40_nodata = true ->
   get_new_fm40 dist_nodata fm40_nodata update_rules d_code o_code = fm40_nodata) /\
  (py_eq (PyInt d_code) dist_nodata = true ->
   py_eq (PyInt o_code) fm40_nodata = false ->
   get_new_fm40 dist_nodata fm40_nodata update_rules d_code o_code = PyInt o_code) /\
  (py_eq (PyInt d_code) dist_nodata = false ->
   o_code <= 100 ->
   get_new_fm40 dist_nodata fm40_nodata update_rules d_code o_code = PyInt o_code).
Proof.
  unfold get_new_fm40. repeat split.
  - intros -> ->. reflexivity.
  - intros -> ->. reflexivity.
  - intros -> Ho. simpl.
    destruct (Z.leb_spec o_code 100); [reflexivity|lia].
Qed.

End Lookup.

Lemma get_new_fm40_short_circuits_witness :
  get_new_fm40 (nodata_or_zero (Some 0)) (nodata_or_zero (Some (-9999))) {[ (131, 165) := Some 182 ]} 131 91 = PyInt 91.
Proof.
  apply (get_new_fm40_short_circuits (nodata_or_zero (Some 0)) (nodata_or_zero (Some (-9999)))
           {[ (131, 165) := Some 182 ]} 131 91).
  - reflexivity.
  - lia.
Defined.

(** C1, at a disturbed, burnable pixel (DIST nodata 0.0, FM40 nodata
    -9999.0, [d_code = 131], [o_code = 165]): with no rule for the pair,
    or with a rule marked 'no change', the lookup yields [None] where the
    original code 165 was to be kept; a rule mapping the pair to 182 does
    yield 182. *)
Theorem get_new_fm40_unlisted_pair :
  get_new_fm40 (nodata_or_zero (Some 0)) (nodata_or_zero (Some (-9999))) ∅ 131 165 = PyNone /\
  get_new_fm40 (nodata_or_zero (Some 0)) (nodata_or_zero (Some (-9999))) {[ (131, 165) := None ]} 131 165 = PyNone /\
  get_new_fm40 (nodata_or_zero (Some 0)) (nodata_or_zero (Some (-9999))) {[ (131, 165) := Some 182 ]} 131 165
    = PyInt 182.
Proof. repeat split; vm_compute; reflexivity. Qed.

(** C7, on the reclassification: a chunk holding the pixel
    [(d_code, o_code) = (131, 165)] and an empty rule table.  The lookup
    yields [None], and converting the chunk to int16 raises [TypeError],
    whether that pixel comes first or after a pixel that yields an
    integer. *)
Theorem updated_fm40_chunk_raises :
  get_new_fm40 (nodata_or_zero (Some 0)) (nodata_or_zero (Some (-9999))) ∅ 131 165 = PyNone /\
  updated_fm40_chunk (nodata_or_zero (Some 0)) (nodata_or_zero (Some (-9999))) ∅ [[(131, 165)]] = Raised TypeError /\
  updated_fm40_chunk (nodata_or_zero (Some 0)) (nodata_or_zero (Some (-9999))) ∅ [[(0, 165); (131, 165)]]
    = Raised TypeError.
Proof. repeat split; vm_compute; reflexivity. Qed.

Section Alignment.
Context {CRS Affine : Type} `{EqDecision CRS} `{EqDecision Affine}.
Variable warped_read : WarpedVRT CRS Affine -> Window -> list (list Z).

Lemma dist_src_differing_grid (src_fm40 src_dist : Dataset CRS Affine) :
  crs (profile src_dist) <> crs (profile src_fm40)
    \/ transform (profile src_dist) <> transform (profile src_fm40)
    \/ shape src_dist <> shape src_fm40 ->
  dist_src src_fm40 src_dist = Warped (aligned_vrt src_fm40 src_dist).
Proof.
  intros Hdiff. unfold dist_src, needs_alignment.
  destruct Hdiff as [Hd|[Hd|Hd]]; rewrite (bool_decide_eq_true_2 _ Hd);
    now rewrite ?orb_true_r.
Qed.

(** C9, as the code has it: in [update_fm40_raster], when the DIST
    raster has the CRS, the transform and the shape of the FM40 raster,
    no alignment is needed, the DIST dataset itself is the source, and
    any window read from that source is the window read from the DIST
    dataset.  [convert_bs_to_dist] makes no such test: its source is
    always the warped view. *)
Theorem dist_src_matching_grid (src_fm40 src_dist : Dataset CRS Affine) :
  crs (profile src_dist) = crs (profile src_fm40) ->
  transform (profile src_dist) = transform (profile src_fm40) ->
  shape src_dist = shape src_fm40 ->
  needs_alignment src_dist src_fm40 = false /\
  dist_src src_fm40 src_dist = Direct src_dist /\
  (forall window,
     source_read warped_read (dist_src src_fm40 src_dist) window
       = read_window (band src_dist) window) /\
  (forall alignment_src src : Dataset CRS Affine,
     Dist.convert_source alignment_src src = Warped (aligned_vrt alignment_src src)).
Proof.
  intros Hcrs Htr Hshape.
  assert (Hno : needs_alignment src_dist src_fm40 = false).
  { unfold needs_alignment.
    rewrite !bool_decide_eq_false_2 by (intros Hne; now apply Hne). reflexivity. }
  assert (Hsrc : dist_src src_fm40 src_dist = Direct src_dist)
    by (unfold dist_src; now rewrite Hno).
  repeat split; auto.
  intros window. now rewrite Hsrc.
Qed.

End Alignment.

Import Example.

Lemma dist_src_matching_grid_witness :
  needs_alignment dist_2017 fm40 = false /\
  dist_src fm40 dist_2017 = Direct dist_2017 /\
  (forall window,
     source_read same_grid_read (dist_src fm40 dist_2017) window
       = read_window (band dist_2017) window) /\
  (forall alignment_src src : Dataset string (list Z),
     Dist.convert_source alignment_src src = Warped (aligned_vrt alignment_src src)).
Proof.
  apply (dist_src_matching_grid same_grid_read fm40 dist_2017); reflexivity.
Defined.

(** The burn-severity raster [bs_2007] already has the grid of [fm40]
    (same CRS, transform and shape), yet the conversion reads it through a
    warped view, not directly. *)
Lemma convert_source_warps_matching_grid :
  crs (profile bs_2007) = crs (profile fm40) /\
  transform (profile bs_2007) = transform (profile fm40) /\
  shape bs_2007 = shape fm40 /\
  Dist.convert_source fm40 bs_2007 = Warped (aligned_vrt fm40 bs_2007) /\
  Dist.convert_source fm40 bs_2007 <> Direct bs_2007.
Proof. repeat split. discriminate. Qed.

End Fm40Facts.

(** ** utils.py: what the expanded ruleset holds *)

Module RulesetFacts.
Import Ruleset.

Section Expand.
Variable ClassMap : gmap string (list Z).

Lemma foldl_insert_lookup (d : Z) (v : option Z) (codes : list Z)
    (rules : gmap (Z * Z) (option Z)) (key : Z * Z) :
  foldl (fun rules original_code => <[(d, original_code) := v]> rules) rules codes !! key
  = if bool_decide (fst key = d /\ snd key ∈ codes) then Some v else rules !! key.
Proof.
  revert rules. induction codes as [|o codes IH]; intros rules; simpl.
  - rewrite bool_decide_eq_false_2; [reflexivity|]. intros [_ H]. inversion H.
  - rewrite IH. destruct key as [kd ko]. simpl.
    destruct (decide (kd = d /\ ko ∈ codes)) as [Hin|Hnin].
    + rewrite !bool_decide_eq_true_2; auto. destruct Hin. split; [auto|now right].
    + rewrite (bool_decide_eq_false_2 _ Hnin).
      destruct (decide ((d, o) = (kd, ko))) as [[= <- <-]|Hne].
      * rewrite lookup_insert_eq. rewrite bool_decide_eq_true_2; [reflexivity|].
        split; [reflexivity|now left].
      * rewrite lookup_insert_ne by exact Hne.
        rewrite bool_decide_eq_false_2; [reflexivity|].
        intros [-> Hin]. apply elem_of_cons in Hin as [->|Hin]; [now apply Hne|].
        apply Hnin. auto.
Qed.

Lemma expand_row_lookup rules row rules' (d_code o_code : Z) :
  expand_row ClassMap rules row = Returned rules' ->
  rules' !! (d_code, o_code)
  = if covers ClassMap row d_code o_code then Some (row_new_code ClassMap row)
    else rules !! (d_code, o_code).
Proof.
  unfold expand_row, covers.
  destruct (DIST_code row) as [d|]; [|discriminate].
  destruct (class_get ClassMap (original_FM40_code row)) as [[|o codes]|].
  - intros [= <-]. rewrite (bool_decide_eq_false_2 (o_code ∈ [])) by apply not_elem_of_nil.
    now rewrite andb_false_r.
  - intros [= <-].
    change (foldl ?f (<[?k:=?v]> rules) codes) with (foldl f rules (o :: codes)).
    rewrite foldl_insert_lookup. simpl fst; simpl snd.
    destruct (decide (d = d_code)) as [->|Hne].
    + rewrite (bool_decide_eq_true_2 (Some d_code = Some d_code)) by reflexivity.
      simpl. destruct (decide (o_code ∈ o :: codes)) as [Hin|Hnin].
      * rewrite !bool_decide_eq_true_2; auto.
      * rewrite !bool_decide_eq_false_2; tauto.
    + rewrite (bool_decide_eq_false_2 (Some d = Some d_code)) by congruence.
      simpl. rewrite bool_decide_eq_false_2; [reflexivity|]. intros [? _]. congruence.
  - intros [= <-]. now rewrite andb_false_r.
Qed.

Lemma expand_rows_lookup rules_df rules rules' (d_code o_code : Z) :
  expand_rows ClassMap rules rules_df = Returned rules' ->
  rules' !! (d_code, o_code)
  = match last_cover ClassMap rules_df d_code o_code with
    | Some row => Some (row_new_code ClassMap row)
    | None => rules !! (d_code, o_code)
    end.
Proof.
  revert rules. induction rules_df as [|row rest IH]; intros rules; simpl.
  - now intros [= <-].
  - destruct (expand_row ClassMap rules row) as [rules1|e] eqn:Hrow; [|discriminate].
    simpl. intros Hrest. rewrite (IH _ Hrest).
    rewrite (expand_row_lookup _ _ _ _ _ Hrow).
    unfold last_cover. rewrite filter_cons.
    destruct (decide (covers ClassMap row d_code o_code = true)) as [Hc|Hc].
    + rewrite Hc, last_cons.
      now destruct (last (filter _ rest)).
    + apply not_true_is_false in Hc. now rewrite Hc.
Qed.




(** In the expanded ruleset a key holds what the last row that writes it
    says (a later row overrides an earlier one); a key no row writes is
    absent.  A row writes the keys [(DIST_code, c)] for the codes [c] of its
    original class, and nothing when [ClassMap] does not know that class. *)
Theorem expand_ruleset_last_row_wins (rules_df : list Row)
    (update_rules : gmap (Z * Z) (option Z)) (d_code o_code : Z) :
  expand_ruleset ClassMap (Returned rules_df) = Some update_rules ->
  update_rules !! (d_code, o_code)
  = row_new_code ClassMap <$> last_cover ClassMap rules_df d_code o_code.
Proof.
  unfold expand_ruleset.
  destruct (expand_rows ClassMap ∅ rules_df) as [rules'|e] eqn:Hrun; [|discriminate].
  intros [= <-]. rewrite (expand_rows_lookup _ _ _ _ _ Hrun).
  destruct (last_cover ClassMap rules_df d_code o_code); [reflexivity|].
  apply lookup_empty.
Qed.

(** Reclassifying with an expanded ruleset: at a disturbed, burnable pixel
    the result is the first code of the new class named by the last row
    that writes the pair, and [None] when no row writes it or that row
    names no known new class. *)
Theorem get_new_fm40_of_expanded (dist_nodata fm40_nodata : pyobj) (rules_df : list Row)
    (update_rules : gmap (Z * Z) (option Z)) (d_code o_code : Z) :
  expand_ruleset ClassMap (Returned rules_df) = Some update_rules ->
  py_eq (PyInt d_code) dist_nodata = false ->
  100 < o_code ->
  Fm40Updater.get_new_fm40 dist_nodata fm40_nodata update_rules d_code o_code
  = match last_cover ClassMap rules_df d_code o_code ≫= row_new_code ClassMap with
    | Some new_code => PyInt new_code
    | None => PyNone
    end.
Proof.
  intros Hexp Hd Ho.
  rewrite Fm40Facts.get_new_fm40_lookup by assumption.
  unfold Fm40Updater.rules_get.
  unfold expand_ruleset in Hexp.
  destruct (expand_rows ClassMap ∅ rules_df) as [rules'|e] eqn:Hrun; [|discriminate].
  injection Hexp as <-. rewrite (expand_rows_lookup _ _ _ _ _ Hrun).
  destruct (last_cover ClassMap rules_df d_code o_code) as [row|]; simpl.
  - now destruct (row_new_code ClassMap row).
  - now rewrite lookup_empty.
Qed.

End Expand.

Import ExampleRules.

Lemma expand_ruleset_last_row_wins_witness :
  update_rules !! (131, 165) = row_new_code ClassMap <$> last_cover ClassMap rules_df 131 165.
Proof.
  apply (expand_ruleset_last_row_wins ClassMap rules_df update_rules 131 165).
  vm_compute. reflexivity.
Defined.

Lemma get_new_fm40_of_expanded_witness :
  Fm40Updater.get_new_fm40 (PyFloat 0) (PyFloat (-9999)) update_rules 131 165
  = match last_cover ClassMap rules_df 131 165 ≫= row_new_code ClassMap with
    | Some new_code => PyInt new_code
    | None => PyNone
    end.
Proof.
  apply (get_new_fm40_of_expanded ClassMap (PyFloat 0) (PyFloat (-9999)) rules_df
           update_rules 131 165).
  - vm_compute. reflexivity.
  - reflexivity.
  - lia.
Defined.

End RulesetFacts.

(** ** dist.py: the ranking, and what the merge at a pixel does with it *)

Module RankingFacts.
Import Dist.

Lemma ranked_cases (c r : Z) :
  DIST_IMPACT_RANKING !! c = Some r ->
  (c, r) ∈ [ (131, 1); (132, 2); (133, 3); (121, 4); (122, 5); (123, 6);
             (111, 7); (112, 8); (113, 9) ].
Proof. apply elem_of_list_to_map_2. Qed.

Lemma ranked_range (c r : Z) :
  DIST_IMPACT_RANKING !! c = Some r -> 1 <= r <= 9.
Proof.
  intros H%ranked_cases.
  repeat (apply elem_of_cons in H as [[= -> ->]|H]; [lia|]).
  now apply elem_of_nil in H.
Qed.

Lemma ranked_inj (c1 c2 r : Z) :
  DIST_IMPACT_RANKING !! c1 = Some r -> DIST_IMPACT_RANKING !! c2 = Some r -> c1 = c2.
Proof.
  assert (Hcode : forall c, DIST_IMPACT_RANKING !! c = Some r ->
                             c = 100 + 10 * (3 - (r - 1) / 3) + ((r - 1) mod 3 + 1)).
  { intros c H%ranked_cases.
    repeat (apply elem_of_cons in H as [[= -> ->]|H]; [reflexivity|]).
    now apply elem_of_nil in H. }
  intros H1 H2. rewrite (Hcode _ H1), (Hcode _ H2). reflexivity.
Qed.

Lemma impact_rank_ranked (c : Z) :
  is_Some (DIST_IMPACT_RANKING !! c) <-> impact_rank c < DEFAULT_RANK.
Proof.
  unfold impact_rank, DEFAULT_RANK.
  destruct (DIST_IMPACT_RANKING !! c) as [r|] eqn:Hc; simpl.
  - pose proof (ranked_range _ _ Hc). split; [lia|eauto].
  - split; [intros [? [=]]|lia].
Qed.

(** Equal ranks mean equal codes as soon as one of the two is ranked. *)
Lemma impact_rank_inj (c1 c2 : Z) :
  is_Some (DIST_IMPACT_RANKING !! c1) -> impact_rank c1 = impact_rank c2 -> c1 = c2.
Proof.
  intros Hc1 Heq.
  assert (Hc2 : is_Some (DIST_IMPACT_RANKING !! c2)).
  { apply impact_rank_ranked. rewrite <- Heq. now apply impact_rank_ranked. }
  destruct Hc1 as [r1 H1], Hc2 as [r2 H2].
  unfold impact_rank in Heq. rewrite H1, H2 in Heq. simpl in Heq. subst r2.
  eapply ranked_inj; eauto.
Qed.

Lemma impact_rank_code (sev tc : Z) :
  1 <= sev <= 3 -> 1 <= tc <= 3 ->
  impact_rank (100 + 10 * sev + tc) = 3 * (3 - sev) + tc.
Proof.
  intros Hs Ht.
  assert (Hsev : sev = 1 \/ sev = 2 \/ sev = 3) by lia.
  assert (Htc : tc = 1 \/ tc = 2 \/ tc = 3) by lia.
  destruct Hsev as [-> | [-> | ->]]; destruct Htc as [-> | [-> | ->]]; reflexivity.
Qed.

(** The table ranks by severity first, then by recency: of two codes
    [100 + 10 * sev + tc] the first is strictly more impactful exactly when
    its severity is higher, or the severities are equal and its time code
    is smaller. *)
Theorem ranking_severity_then_recency (sev1 tc1 sev2 tc2 : Z) :
  1 <= sev1 <= 3 -> 1 <= tc1 <= 3 -> 1 <= sev2 <= 3 -> 1 <= tc2 <= 3 ->
  impact_rank (100 + 10 * sev1 + tc1) < impact_rank (100 + 10 * sev2 + tc2)
  <-> sev2 < sev1 \/ (sev1 = sev2 /\ tc1 < tc2).
Proof.
  intros Hs1 Ht1 Hs2 Ht2. rewrite !impact_rank_code by assumption. lia.
Qed.

Lemma ranking_severity_then_recency_witness :
  impact_rank (100 + 10 * 3 + 3) < impact_rank (100 + 10 * 2 + 1)
  <-> 2 < 3 \/ (3 = 2 /\ 3 < 1).
Proof. apply (ranking_severity_then_recency 3 3 2 1); lia. Defined.

End RankingFacts.

Module CombinePixelFacts.
Import Dist DistFacts RankingFacts.

(** When some raster holds a ranked code at the pixel, the merged code is
    ranked too, is one of the stack's codes and is at least as impactful:
    nodata or an unranked code never displaces a ranked one. *)
Theorem combine_pixel_ranked_wins (nodata_val : Z) (stack : list Z) (x : Z) :
  x ∈ stack -> is_Some (DIST_IMPACT_RANKING !! x) ->
  exists code,
    combine_pixel nodata_val stack = Returned code /\
    code ∈ stack /\
    is_Some (DIST_IMPACT_RANKING !! code) /\
    impact_rank code <= impact_rank x.
Proof.
  intros Hx Hranked.
  destruct (combine_pixel_spec nodata_val stack) as (i & code & Hrun & Hi & Hmin & _).
  { intros ->. now apply elem_of_nil in Hx. }
  apply list_elem_of_lookup in Hx as [j Hj].
  exists code. split; [exact Hrun|]. split; [apply list_elem_of_lookup; eauto|].
  pose proof (Hmin _ _ Hj) as Hle. split; [|exact Hle].
  apply impact_rank_ranked. apply impact_rank_ranked in Hranked. lia.
Qed.

Lemma combine_pixel_ranked_wins_witness :
  exists code,
    combine_pixel 0 [0; 7; 113] = Returned code /\
    code ∈ [0; 7; 113] /\
    is_Some (DIST_IMPACT_RANKING !! code) /\
    impact_rank code <= impact_rank 113.
Proof.
  apply (combine_pixel_ranked_wins 0 [0; 7; 113] 113).
  - set_solver.
  - vm_compute. eauto.
Defined.

(** When no raster holds a ranked code at the pixel, the code of the first
    raster is passed through, whatever the others hold: an unranked code
    that is not the nodata survives if it comes first. *)
Theorem combine_pixel_unranked_first (nodata_val c : Z) (rest : list Z) :
  Forall (fun x => DIST_IMPACT_RANKING !! x = None) (c :: rest) ->
  combine_pixel nodata_val (c :: rest) = Returned c.
Proof.
  intros Hall.
  destruct (combine_pixel_spec nodata_val (c :: rest)) as (i & code & Hrun & Hi & _ & Hfirst);
    [discriminate|].
  rewrite Hrun. destruct i as [|i]; [simpl in Hi; congruence|exfalso].
  assert (Hc : impact_rank code < impact_rank c) by (apply (Hfirst 0%nat); [lia|reflexivity]).
  rewrite Forall_lookup in Hall.
  rewrite (impact_rank_absent code), (impact_rank_absent c) in Hc; [lia| |].
  - apply (Hall 0%nat). reflexivity.
  - apply (Hall (S i)). exact Hi.
Qed.

Lemma combine_pixel_unranked_first_witness : combine_pixel 0 [7; 0; 0] = Returned 7.
Proof.
  apply (combine_pixel_unranked_first 0 7 [0; 0]).
  repeat constructor.
Defined.

(** On stacks that hold only ranked codes and the nodata value, the merged
    code does not depend on the order of the rasters. *)
Theorem combine_pixel_order_independent (nodata_val : Z) (stack1 stack2 : list Z) :
  stack1 ≡ₚ stack2 ->
  stack1 <> [] ->
  Forall (fun c => is_Some (DIST_IMPACT_RANKING !! c) \/ c = nodata_val) stack1 ->
  combine_pixel nodata_val stack1 = combine_pixel nodata_val stack2.
Proof.
  intros Hperm Hne Hcodes.
  assert (Hne2 : stack2 <> []).
  { intros ->. now apply Permutation_nil_r in Hperm. }
  destruct (combine_pixel_spec nodata_val stack1 Hne) as (i1 & c1 & Hrun1 & Hi1 & Hmin1 & _).
  destruct (combine_pixel_spec nodata_val stack2 Hne2) as (i2 & c2 & Hrun2 & Hi2 & Hmin2 & _).
  rewrite Hrun1, Hrun2. f_equal.
  assert (Hin1 : c1 ∈ stack1) by (apply list_elem_of_lookup; eauto).
  assert (Hin2 : c2 ∈ stack2) by (apply list_elem_of_lookup; eauto).
  assert (Hc1 : c1 ∈ stack2) by now rewrite <- Hperm.
  assert (Hc2 : c2 ∈ stack1) by now rewrite Hperm.
  assert (Heq : impact_rank c1 = impact_rank c2).
  { apply list_elem_of_lookup in Hc1 as [j1 Hj1].
    apply list_elem_of_lookup in Hc2 as [j2 Hj2].
    pose proof (Hmin1 _ _ Hj2). pose proof (Hmin2 _ _ Hj1). lia. }
  rewrite Forall_forall in Hcodes.
  destruct (Hcodes _ Hin1) as [Hr1| ->]; [now apply impact_rank_inj|].
  destruct (Hcodes _ Hc2) as [Hr2| ->]; [|reflexivity].
  symmetry. now apply impact_rank_inj.
Qed.

Lemma combine_pixel_order_independent_witness :
  combine_pixel 0 [122; 0; 131] = combine_pixel 0 [131; 122; 0].
Proof.
  apply (combine_pixel_order_independent 0 [122; 0; 131] [131; 122; 0]).
  - symmetry. apply (Permutation_cons_append [122; 0] 131).
  - discriminate.
  - apply Forall_cons_2; [left; vm_compute; eauto|].
    apply Forall_cons_2; [right; reflexivity|].
    apply Forall_cons_2; [left; vm_compute; eauto|].
    apply Forall_nil_2.
Defined.

(** Two fires seen at one pixel, encoded for the same effective year and
    merged: the higher severity wins; at equal severity the smaller time
    code (the more recent fire) wins. *)
Theorem combine_two_encoded_fires (fire_year1 fire_year2 effective_year v1 v2 : Z)
    (tc1 tc2 sev1 sev2 : Z) :
  get_time_code fire_year1 effective_year = Returned (Some tc1) ->
  get_time_code fire_year2 effective_year = Returned (Some tc2) ->
  severityCode v1 = Some sev1 ->
  severityCode v2 = Some sev2 ->
  combine_pixel dist_nodata [dist_pixel (Some tc1) v1; dist_pixel (Some tc2) v2]
  = Returned (if (sev2 <? sev1) || ((sev1 =? sev2) && (tc1 <=? tc2))
              then 100 + 10 * sev1 + tc1
              else 100 + 10 * sev2 + tc2).
Proof.
  intros Ht1 Ht2 Hs1 Hs2.
  assert (Htc : forall f tc, get_time_code f effective_year = Returned (Some tc) ->
                             1 <= tc <= 3).
  { intros f tc. unfold get_time_code.
    destruct (effective_year <? f); [discriminate|].
    intros [= H%time_code_of_range]. lia. }
  pose proof (Htc _ _ Ht1) as Hr1. pose proof (Htc _ _ Ht2) as Hr2.
  assert (Hsev : forall v sev, severityCode v = Some sev -> 1 <= sev <= 3).
  { intros v sev H%severityCode_cases. lia. }
  pose proof (Hsev _ _ Hs1) as Hv1. pose proof (Hsev _ _ Hs2) as Hv2.
  rewrite (dist_pixel_key tc1 v1 sev1), (dist_pixel_key tc2 v2 sev2) by (lia || assumption).
  set (c1 := 100 + 10 * sev1 + tc1). set (c2 := 100 + 10 * sev2 + tc2).
  destruct (combine_pixel_spec dist_nodata [c1; c2]) as (i & code & Hrun & Hi & Hmin & Hfirst);
    [discriminate|].
  rewrite Hrun. f_equal.
  pose proof (impact_rank_code sev1 tc1 Hv1 Hr1) as Hk1.
  pose proof (impact_rank_code sev2 tc2 Hv2 Hr2) as Hk2.
  fold c1 in Hk1. fold c2 in Hk2.
  destruct i as [|[|i]]; simpl in Hi.
  - injection Hi as <-.
    pose proof (Hmin 1%nat c2 eq_refl) as Hle. rewrite Hk1, Hk2 in Hle.
    destruct (Z.ltb_spec sev2 sev1); [reflexivity|].
    destruct (Z.eqb_spec sev1 sev2); [|lia].
    destruct (Z.leb_spec tc1 tc2); [reflexivity|lia].
  - injection Hi as <-.
    pose proof (Hfirst 0%nat c1 ltac:(lia) eq_refl) as Hlt. rewrite Hk1, Hk2 in Hlt.
    destruct (Z.ltb_spec sev2 sev1); [lia|].
    destruct (Z.eqb_spec sev1 sev2); [|reflexivity].
    destruct (Z.leb_spec tc1 tc2); [lia|reflexivity].
  - now rewrite lookup_nil in Hi.
Qed.

Lemma combine_two_encoded_fires_witness :
  combine_pixel dist_nodata [dist_pixel (Some 3) 4; dist_pixel (Some 1) 3]
  = Returned (if (2 <? 3) || ((3 =? 2) && (3 <=? 1))
              then 100 + 10 * 3 + 3
              else 100 + 10 * 2 + 1).
Proof.
  apply (combine_two_encoded_fires 2010 2018 2018 4 3 3 1 3 2); reflexivity.
Defined.

End CombinePixelFacts.

(** ** dist.py: the merge on the windows read *)

Module CombineChunkFacts.
Import Dist DistFacts Tiles.

Lemma mapM_Returned_map {A B} (f : A -> outcome B) (g : A -> B) (l : list A) :
  (forall a, a ∈ l -> f a = Returned (g a)) ->
  Py.mapM f l = Returned (map g l).
Proof.
  induction l as [|a l IH]; intros Hf; simpl; [reflexivity|].
  rewrite (Hf a) by now left. simpl.
  rewrite IH by (intros a' Ha'; apply Hf; now right). reflexivity.
Qed.

Lemma np_array_ok (first : list (list Z)) (rest : list (list (list Z))) :
  Forall (fun b => map length b = map length first) rest ->
  np_array (first :: rest) = Returned (first :: rest).
Proof.
  intros Hshape. unfold np_array.
  replace (forallb _ rest) with true; [reflexivity|].
  symmetry. apply forallb_forall. intros b Hb. apply bool_decide_eq_true_2.
  rewrite Forall_forall in Hshape. apply Hshape. now apply list_elem_of_In.
Qed.

Lemma np_array_mismatch (first : list (list Z)) (rest : list (list (list Z))) :
  ~ Forall (fun b => map length b = map length first) rest ->
  np_array (first :: rest) = Raised ValueError.
Proof.
  intros Hshape. unfold np_array.
  destruct (forallb _ rest) eqn:Hall; [exfalso|reflexivity].
  apply Hshape, Forall_forall. intros b Hb.
  rewrite forallb_forall in Hall.
  apply list_elem_of_In in Hb. apply Hall in Hb. now apply bool_decide_eq_true_1 in Hb.
Qed.

(** Under the shape test every raster has the pixels the first one has. *)
Lemma pixel_at_same_shape (first band : list (list Z)) (r c : nat) :
  map length band = map length first ->
  is_Some (pixel_at first r c) -> is_Some (pixel_at band r c).
Proof.
  intros Hshape [x Hx]. unfold pixel_at in *.
  destruct (first !! r) as [row|] eqn:Hrow; [simpl in Hx|discriminate].
  assert (Hlen : (length <$> band) !! r = Some (length row)).
  { change (map length band !! r = Some (length row)).
    rewrite Hshape. change ((length <$> first) !! r = Some (length row)).
    now rewrite list_lookup_fmap, Hrow. }
  rewrite list_lookup_fmap in Hlen.
  destruct (band !! r) as [brow|]; [simpl in *|discriminate].
  injection Hlen as Hlen. apply lookup_lt_is_Some. rewrite Hlen.
  now apply lookup_lt_Some in Hx.
Qed.

Lemma pixel_stack_Forall2 (all_data : list (list (list Z))) (r c : nat) :
  Forall (fun band => is_Some (pixel_at band r c)) all_data ->
  Forall2 (fun band x => pixel_at band r c = Some x) all_data (pixel_stack all_data r c).
Proof.
  induction 1 as [|band all_data [x Hx] _ IH]; [constructor|].
  unfold pixel_stack in *. simpl. fold (pixel_at band r c). rewrite Hx.
  constructor; assumption.
Qed.

Lemma chunk_pixels (first : list (list Z)) (rest : list (list (list Z))) (r c : nat) :
  Forall (fun b => map length b = map length first) rest ->
  is_Some (pixel_at first r c) ->
  Forall (fun band => is_Some (pixel_at band r c)) (first :: rest).
Proof.
  intros Hshape Hpix. constructor; [exact Hpix|].
  eapply Forall_impl; [exact Hshape|]. intros band Hband.
  now apply (pixel_at_same_shape first).
Qed.

Lemma merged_pixel_Returned nodata_val (first : list (list Z)) rest (r c : nat) :
  Forall (fun b => map length b = map length first) rest ->
  is_Some (pixel_at first r c) ->
  combine_pixel nodata_val (pixel_stack (first :: rest) r c)
  = Returned (merged_pixel nodata_val (first :: rest) r c).
Proof.
  intros Hshape Hpix.
  pose proof (pixel_stack_Forall2 _ r c (chunk_pixels _ _ _ _ Hshape Hpix)) as Hstack.
  destruct (combine_pixel_spec nodata_val (pixel_stack (first :: rest) r c))
    as (i & code & Hrun & _).
  { intros Hnil. rewrite Hnil in Hstack. inversion Hstack. }
  unfold merged_pixel. now rewrite Hrun.
Qed.

(** What [combine_chunk] returns when the windows pass its tests. *)
Lemma combine_chunk_run nodata_val (first : list (list Z)) rest :
  Forall (fun b => map length b = map length first) rest ->
  concat first <> [] ->
  combine_chunk nodata_val (first :: rest)
  = Returned (map (fun r => map (merged_pixel nodata_val (first :: rest) r)
                               (seq 0 (length (default [] (first !! r)))))
                  (seq 0 (length first))).
Proof.
  intros Hshape Hsize. unfold combine_chunk.
  rewrite (np_array_ok _ _ Hshape). simpl Py.bind.
  rewrite bool_decide_eq_false_2 by exact Hsize.
  apply mapM_Returned_map. intros r Hr.
  apply mapM_Returned_map. intros c Hc.
  apply merged_pixel_Returned; [exact Hshape|].
  apply elem_of_seq in Hr. apply elem_of_seq in Hc.
  unfold pixel_at.
  destruct (first !! r) as [row|] eqn:Hrow; simpl in *.
  - apply lookup_lt_is_Some. lia.
  - lia.
Qed.

Lemma tabulate_lookup (value : nat -> nat -> Z) (first : list (list Z)) (r c : nat) :
  pixel_at (map (fun r => map (value r) (seq 0 (length (default [] (first !! r)))))
                (seq 0 (length first))) r c
  = (fun _ => value r c) <$> pixel_at first r c.
Proof.
  unfold pixel_at.
  change (map ?f ?l) with (f <$> l). rewrite list_lookup_fmap.
  destruct (first !! r) as [row|] eqn:Hrow.
  - rewrite lookup_seq_lt by (now apply lookup_lt_Some in Hrow).
    simpl. rewrite Hrow. simpl.
    change (map ?f ?l) with (f <$> l). rewrite list_lookup_fmap.
    destruct (row !! c) as [x|] eqn:Hx.
    + rewrite lookup_seq_lt by (now apply lookup_lt_Some in Hx). reflexivity.
    + rewrite lookup_seq_ge by (apply lookup_ge_None in Hx; lia). reflexivity.
  - rewrite lookup_seq_ge by (apply lookup_ge_None in Hrow; lia). reflexivity.
Qed.

Lemma tabulate_shape (value : nat -> nat -> Z) (first : list (list Z)) :
  map length (map (fun r => map (value r) (seq 0 (length (default [] (first !! r)))))
                  (seq 0 (length first)))
  = map length first.
Proof.
  apply list_eq. intros r.
  change (map ?f ?l) with (f <$> l). rewrite !list_lookup_fmap.
  destruct (first !! r) as [row|] eqn:Hrow.
  - rewrite lookup_seq_lt by (now apply lookup_lt_Some in Hrow).
    simpl. rewrite Hrow. simpl. now rewrite length_map, length_seq.
  - rewrite lookup_seq_ge by (apply lookup_ge_None in Hrow; lia). reflexivity.
Qed.

(** Two buffers of one shape with the same pixels are equal. *)
Lemma band_eq (a b : list (list Z)) :
  map length a = map length b ->
  (forall r c, pixel_at a r c = pixel_at b r c) ->
  a = b.
Proof.
  intros Hshape Hpix. apply list_eq. intros r.
  assert (Hlen : (length <$> a) !! r = (length <$> b) !! r)
    by (change (map length a !! r = map length b !! r); now rewrite Hshape).
  rewrite !list_lookup_fmap in Hlen.
  specialize (Hpix r). unfold pixel_at in Hpix.
  destruct (a !! r) as [ra|], (b !! r) as [rb|]; simpl in *; try discriminate; [|reflexivity].
  f_equal. apply list_eq. exact Hpix.
Qed.

(** When the windows read have one shape and hold a pixel, the merge
    returns a buffer of that shape whose pixel at [(r, c)] is the merge of
    the rasters' pixels at [(r, c)], taken in the order of the rasters. *)
Theorem combine_chunk_pixelwise nodata_val (first : list (list Z)) rest :
  Forall (fun b => map length b = map length first) rest ->
  concat first <> [] ->
  exists final_chunk,
    combine_chunk nodata_val (first :: rest) = Returned final_chunk /\
    map length final_chunk = map length first /\
    forall r c, is_Some (pixel_at first r c) ->
      exists stack code,
        Forall2 (fun band x => pixel_at band r c = Some x) (first :: rest) stack /\
        combine_pixel nodata_val stack = Returned code /\
        pixel_at final_chunk r c = Some code.
Proof.
  intros Hshape Hsize. eexists. split; [now apply combine_chunk_run|].
  split; [apply tabulate_shape|].
  intros r c Hpix.
  exists (pixel_stack (first :: rest) r c), (merged_pixel nodata_val (first :: rest) r c).
  split; [apply pixel_stack_Forall2; now apply chunk_pixels|].
  split; [now apply merged_pixel_Returned|].
  rewrite tabulate_lookup. destruct Hpix as [x ->]. reflexivity.
Qed.

Lemma combine_chunk_pixelwise_witness :
  exists final_chunk,
    combine_chunk 0 [[[122; 0]]; [[0; 0]]; [[131; 113]]] = Returned final_chunk /\
    map length final_chunk = map length [[122; 0]] /\
    forall r c, is_Some (pixel_at [[122; 0]] r c) ->
      exists stack code,
        Forall2 (fun band x => pixel_at band r c = Some x)
                [[[122; 0]]; [[0; 0]]; [[131; 113]]] stack /\
        combine_pixel 0 stack = Returned code /\
        pixel_at final_chunk r c = Some code.
Proof.
  apply (combine_chunk_pixelwise 0 [[122; 0]] [[[0; 0]]; [[131; 113]]]).
  - repeat (apply Forall_cons_2; [reflexivity|]). apply Forall_nil_2.
  - discriminate.
Defined.

(** The merge of a chunk fails only with [ValueError], and exactly when
    there is no window, the windows differ in shape, or the first window
    holds no pixel. *)
Theorem combine_chunk_failure nodata_val (windows : list (list (list Z))) :
  (chunk_ok windows -> exists final_chunk, combine_chunk nodata_val windows = Returned final_chunk)
  /\ (~ chunk_ok windows -> combine_chunk nodata_val windows = Raised ValueError).
Proof.
  destruct windows as [|first rest]; simpl.
  - split; [tauto|reflexivity].
  - split.
    + intros [Hshape Hsize]. eexists. now apply combine_chunk_run.
    + intros Hbad. unfold combine_chunk.
      destruct (decide (Forall (fun b => map length b = map length first) rest))
        as [Hshape|Hshape].
      * rewrite (np_array_ok _ _ Hshape). simpl Py.bind.
        rewrite bool_decide_eq_true_2; [reflexivity|].
        destruct (decide (concat first = [])); tauto.
      * now rewrite (np_array_mismatch _ _ Hshape).
Qed.

Lemma combine_chunk_failure_witness :
  combine_chunk 0 [[[122; 0]]; [[0]; [0]]] = Raised ValueError.
Proof.
  apply (combine_chunk_failure 0 [[[122; 0]]; [[0]; [0]]]).
  simpl. intros [Hshape _]. apply Forall_cons_1 in Hshape as [Hshape _]. discriminate.
Defined.

Lemma pixel_stack_replicate (n : nat) (win : list (list Z)) (r c : nat) (x : Z) :
  pixel_at win r c = Some x ->
  pixel_stack (replicate n win) r c = replicate n x.
Proof.
  intros Hx. induction n as [|n IH]; [reflexivity|].
  change (pixel_stack (replicate (S n) win) r c)
    with (match pixel_at win r c with
          | Some x => x :: pixel_stack (replicate n win) r c
          | None => pixel_stack (replicate n win) r c
          end).
  now rewrite Hx, IH.
Qed.

(** Merging a raster with copies of itself, or on its own, gives the
    raster back, whatever codes it holds. *)
Theorem combine_chunk_copies nodata_val (n : nat) (win : list (list Z)) :
  concat win <> [] ->
  combine_chunk nodata_val (replicate (S n) win) = Returned win.
Proof.
  intros Hsize. change (replicate (S n) win) with (win :: replicate n win).
  assert (Hshape : Forall (fun b => map length b = map length win) (replicate n win))
    by now apply Forall_replicate.
  rewrite (combine_chunk_run _ _ _ Hshape Hsize). f_equal.
  apply band_eq; [apply tabulate_shape|].
  intros r c. rewrite tabulate_lookup.
  destruct (pixel_at win r c) as [x|] eqn:Hx; [simpl|reflexivity]. f_equal.
  unfold merged_pixel.
  change (win :: replicate n win) with (replicate (S n) win).
  rewrite (pixel_stack_replicate _ _ _ _ _ Hx).
  destruct (combine_pixel_spec nodata_val (replicate (S n) x)) as (i & code & Hrun & Hi & _);
    [discriminate|].
  rewrite Hrun. apply lookup_replicate in Hi as [-> _]. reflexivity.
Qed.

Lemma combine_chunk_copies_witness :
  combine_chunk 0 (replicate 2 [[122; 7]; [0; 113]]) = Returned [[122; 7]; [0; 113]].
Proof. apply (combine_chunk_copies 0 1 [[122; 7]; [0; 113]]). discriminate. Defined.

End CombineChunkFacts.

(** ** fm40_updater.py: the lookup on a chunk *)

Module ChunkLookupFacts.
Import Fm40Updater Cells CombineChunkFacts.

Lemma mapM_map_Returned {A B C} (f : B -> outcome C) (g : A -> B) (k : A -> C) (l : list A) :
  Forall (fun a => f (g a) = Returned (k a)) l ->
  Py.mapM f (map g l) = Returned (map k l).
Proof.
  induction 1 as [|a l Ha _ IH]; simpl; [reflexivity|].
  now rewrite Ha, IH.
Qed.

(** A chunk with a [None] among its results does not pass [mapM]. *)
Lemma mapM_int_of_None (results : list (list pyobj)) :
  Exists (fun v => v = PyNone) (concat results) ->
  Py.mapM (Py.mapM (fun v => n <- int_of v ;; Returned (int16_cell n))) results
  = Raised TypeError.
Proof.
  intros Hex. apply List.Exists_concat in Hex.
  assert (Hrow_outcome : forall row : list pyobj,
             (exists cells, Py.mapM (fun v => n <- int_of v ;; Returned (int16_cell n)) row
                            = Returned cells)
             \/ Py.mapM (fun v => n <- int_of v ;; Returned (int16_cell n)) row
                = Raised TypeError).
  { induction row as [|v row [[cells IHrow]|IHrow]]; simpl; [eauto| |].
    - rewrite IHrow. destruct v; simpl; eauto.
    - rewrite IHrow. destruct v; simpl; eauto. }
  induction Hex as [row results Hrow|row results _ IH]; simpl.
  - replace (Py.mapM _ row) with (@Raised (list (option Z)) TypeError); [reflexivity|].
    symmetry. induction Hrow as [v row ->|v row _ IHrow]; simpl; [reflexivity|].
    rewrite IHrow. now destruct v.
  - rewrite IH. destruct (Hrow_outcome row) as [[cells ->]| ->]; reflexivity.
Qed.

Section Lookup.
Variable dist_nodata : pyobj.
Variable declared_fm40_nodata : option Z.
Variable update_rules : gmap (Z * Z) (option Z).

Lemma results_eq (pixels : list (list (Z * Z))) :
  map (map (fun '(d_code, o_code) =>
              get_new_fm40 dist_nodata (nodata_or_zero declared_fm40_nodata) update_rules d_code o_code)) pixels
  = map (map (lookup_pixel dist_nodata (nodata_or_zero declared_fm40_nodata) update_rules)) pixels.
Proof.
  apply map_ext. intros row. apply map_ext. now intros [d o].
Qed.

Lemma concat_results (pixels : list (list (Z * Z))) :
  concat (map (map (lookup_pixel dist_nodata (nodata_or_zero declared_fm40_nodata) update_rules)) pixels) = map (lookup_pixel dist_nodata (nodata_or_zero declared_fm40_nodata) update_rules) (concat pixels).
Proof. symmetry. apply concat_map. Qed.

(** What the chunk becomes once every result is a number. *)
Lemma chunk_of_numbers (pixels : list (list (Z * Z))) :
  concat pixels <> [] ->
  Forall (fun pixel => (lookup_pixel dist_nodata (nodata_or_zero declared_fm40_nodata) update_rules) pixel <> PyNone) (concat pixels) ->
  updated_fm40_chunk dist_nodata (nodata_or_zero declared_fm40_nodata) update_rules pixels
  = Returned (map (map (fun pixel => py_value ((lookup_pixel dist_nodata (nodata_or_zero declared_fm40_nodata) update_rules) pixel) ≫= int16_cell)) pixels).
Proof.
  intros Hsize Hnum. unfold updated_fm40_chunk. cbv zeta.
  rewrite results_eq, concat_results.
  destruct (concat pixels) as [|pixel0 others] eqn:Hconcat; [congruence|].
  rewrite <- Hconcat in Hnum. simpl.
  assert (H0 : (lookup_pixel dist_nodata (nodata_or_zero declared_fm40_nodata) update_rules) pixel0 <> PyNone).
  { rewrite Hconcat in Hnum. now apply Forall_cons_1 in Hnum as [? _]. }
  apply List.Forall_concat in Hnum.
  destruct ((lookup_pixel dist_nodata (nodata_or_zero declared_fm40_nodata) update_rules) pixel0) as [n0|x0|]; [| |congruence].
  - apply mapM_map_Returned.
    eapply Forall_impl; [exact Hnum|]. intros row Hrow.
    apply mapM_map_Returned.
    eapply Forall_impl; [exact Hrow|]. intros pixel Hpixel. simpl in Hpixel.
    now destruct ((lookup_pixel dist_nodata (nodata_or_zero declared_fm40_nodata) update_rules) pixel).
  - f_equal. rewrite map_map. apply map_ext. intros row.
    rewrite map_map. apply map_ext. intros pixel.
    now destruct ((lookup_pixel dist_nodata (nodata_or_zero declared_fm40_nodata) update_rules) pixel).
Qed.

(** A pixel that takes one of the short-circuits yields a number whose
    value is the original code. *)
Lemma result_short_circuit (pixel : Z * Z) :
  py_eq (PyInt (fst pixel)) dist_nodata = true \/ snd pixel <= 100 ->
  py_value ((lookup_pixel dist_nodata (nodata_or_zero declared_fm40_nodata) update_rules) pixel) = Some (snd pixel).
Proof.
  destruct pixel as [d o]. unfold lookup_pixel, get_new_fm40. cbn [fst snd].
  intros Hshort.
  destruct (py_eq (PyInt d) dist_nodata) eqn:Hd.
  - destruct (py_eq (PyInt o) (nodata_or_zero declared_fm40_nodata)) eqn:Ho; cbn [andb orb].
    + destruct declared_fm40_nodata as [x|]; simpl in Ho |- *;
        apply Z.eqb_eq in Ho; now subst.
    + reflexivity.
  - cbn [andb orb]. destruct Hshort as [?|Ho]; [discriminate|].
    destruct (Z.leb_spec o 100); [reflexivity|lia].
Qed.

(** Where no pixel of the chunk is both disturbed and burnable, the chunk
    comes back as it was read: no disturbance, or a non-burnable class,
    leaves the FM40 code unchanged.  (A code outside int16 is not followed
    through the cast.) *)
Theorem updated_fm40_chunk_unchanged (pixels : list (list (Z * Z))) :
  concat pixels <> [] ->
  Forall (fun pixel => py_eq (PyInt (fst pixel)) dist_nodata = true \/ snd pixel <= 100)
         (concat pixels) ->
  updated_fm40_chunk dist_nodata (nodata_or_zero declared_fm40_nodata) update_rules pixels
  = Returned (map (map (fun pixel => int16_cell (snd pixel))) pixels).
Proof.
  intros Hsize Hshort.
  rewrite chunk_of_numbers; [|exact Hsize|].
  - f_equal. apply List.Forall_concat in Hshort.
    apply Forall_fmap_ext_1. eapply Forall_impl; [exact Hshort|]. intros row Hrow.
    apply Forall_fmap_ext_1. eapply Forall_impl; [exact Hrow|]. intros pixel Hpixel.
    simpl in Hpixel. now rewrite (result_short_circuit _ Hpixel).
  - eapply Forall_impl; [exact Hshort|]. intros pixel Hpixel Hnone. simpl in Hpixel.
    pose proof (result_short_circuit _ Hpixel) as Hv. now rewrite Hnone in Hv.
Qed.

(** When every disturbed, burnable pixel of the chunk has a rule with a
    replacement code, the conversion returns: such a pixel becomes its
    replacement code and every other pixel keeps its code. *)
Theorem updated_fm40_chunk_all_rules (pixels : list (list (Z * Z))) :
  concat pixels <> [] ->
  Forall (fun pixel =>
            py_eq (PyInt (fst pixel)) dist_nodata = false -> 100 < snd pixel ->
            exists new_code, update_rules !! pixel = Some (Some new_code))
         (concat pixels) ->
  updated_fm40_chunk dist_nodata (nodata_or_zero declared_fm40_nodata) update_rules pixels
  = Returned (map (map (fun pixel =>
                          if py_eq (PyInt (fst pixel)) dist_nodata || (snd pixel <=? 100)
                          then int16_cell (snd pixel)
                          else mjoin (update_rules !! pixel) ≫= int16_cell)) pixels).
Proof.
  intros Hsize Hrules.
  assert (Hcell : Forall (fun pixel =>
            py_value ((lookup_pixel dist_nodata (nodata_or_zero declared_fm40_nodata) update_rules) pixel)
            = (if py_eq (PyInt (fst pixel)) dist_nodata || (snd pixel <=? 100)
               then Some (snd pixel) else mjoin (update_rules !! pixel))
            /\ (lookup_pixel dist_nodata (nodata_or_zero declared_fm40_nodata) update_rules) pixel <> PyNone) (concat pixels)).
  { eapply Forall_impl; [exact Hrules|]. intros [d o] Hrule. cbn [fst snd] in *.
    destruct (py_eq (PyInt d) dist_nodata) eqn:Hd; cbn [orb].
    - pose proof (result_short_circuit (d, o) (or_introl Hd)) as Hv.
      split; [exact Hv|]. intros Hnone. rewrite Hnone in Hv. discriminate.
    - destruct (Z.leb_spec o 100) as [Ho|Ho].
      + pose proof (result_short_circuit (d, o) (or_intror Ho)) as Hv.
        split; [exact Hv|]. intros Hnone. rewrite Hnone in Hv. discriminate.
      + destruct (Hrule eq_refl Ho) as [new_code Hnew].
        unfold lookup_pixel. cbn [fst snd].
        rewrite (Fm40Facts.get_new_fm40_replacement _ _ _ d o new_code Hd Ho Hnew).
        rewrite Hnew. split; [reflexivity|discriminate]. }
  rewrite chunk_of_numbers; [|exact Hsize|].
  - f_equal. apply List.Forall_concat in Hcell.
    apply Forall_fmap_ext_1. eapply Forall_impl; [exact Hcell|]. intros row Hrow.
    apply Forall_fmap_ext_1. eapply Forall_impl; [exact Hrow|]. intros pixel [Hv _].
    cbv beta. rewrite Hv.
    now destruct (py_eq (PyInt (fst pixel)) dist_nodata || (snd pixel <=? 100)).
  - eapply Forall_impl; [exact Hcell|]. now intros pixel [_ ?].
Qed.

(** When the result at the first pixel of the chunk is not a float, the
    conversion raises [TypeError] as soon as one pixel of the chunk, at any
    place, yields [None], that is, is disturbed and burnable with no
    replacement rule. *)
Theorem updated_fm40_chunk_TypeError (pixel0 : Z * Z) (row : list (Z * Z))
    (rows : list (list (Z * Z))) :
  (forall x, (lookup_pixel dist_nodata (nodata_or_zero declared_fm40_nodata) update_rules) pixel0 <> PyFloat x) ->
  Exists (fun pixel => (lookup_pixel dist_nodata (nodata_or_zero declared_fm40_nodata) update_rules) pixel = PyNone) (concat ((pixel0 :: row) :: rows)) ->
  updated_fm40_chunk dist_nodata (nodata_or_zero declared_fm40_nodata) update_rules ((pixel0 :: row) :: rows)
  = Raised TypeError.
Proof.
  intros Hfirst Hex. unfold updated_fm40_chunk. cbv zeta.
  rewrite results_eq.
  set (results := map (map (lookup_pixel dist_nodata (nodata_or_zero declared_fm40_nodata) update_rules)) ((pixel0 :: row) :: rows)).
  assert (Hc : concat results = map (lookup_pixel dist_nodata (nodata_or_zero declared_fm40_nodata) update_rules) (pixel0 :: row ++ concat rows))
    by (subst results; now rewrite concat_results).
  rewrite Hc. cbn [map].
  destruct ((lookup_pixel dist_nodata (nodata_or_zero declared_fm40_nodata) update_rules) pixel0) as [n0|x0|] eqn:H0; [|now elim (Hfirst x0)|reflexivity].
  apply mapM_int_of_None. rewrite Hc.
  apply Exists_fmap. exact Hex.
Qed.

End Lookup.

Lemma updated_fm40_chunk_unchanged_witness :
  updated_fm40_chunk (PyFloat 0) (nodata_or_zero (Some (-9999))) ∅
                     [[(0, 165); (131, 91)]; [(0, -9999); (0, 102)]]
  = Returned (map (map (fun pixel => int16_cell (snd pixel)))
                  [[(0, 165); (131, 91)]; [(0, -9999); (0, 102)]]).
Proof.
  apply (updated_fm40_chunk_unchanged (PyFloat 0) (Some (-9999)) ∅
           [[(0, 165); (131, 91)]; [(0, -9999); (0, 102)]]).
  - discriminate.
  - simpl. repeat (apply Forall_cons_2; [(left; reflexivity) || (right; simpl; lia)|]).
    apply Forall_nil_2.
Defined.

Lemma updated_fm40_chunk_all_rules_witness :
  updated_fm40_chunk (PyFloat 0) (nodata_or_zero (Some (-9999))) {[ (131, 165) := Some 182 ]}
                     [[(0, 165); (131, 165)]]
  = Returned (map (map (fun pixel =>
                          if py_eq (PyInt (fst pixel)) (PyFloat 0) || (snd pixel <=? 100)
                          then int16_cell (snd pixel)
                          else mjoin (({[ (131, 165) := Some 182 ]} : gmap (Z * Z) (option Z))
                                        !! pixel) ≫= int16_cell))
                  [[(0, 165); (131, 165)]]).
Proof.
  apply (updated_fm40_chunk_all_rules (PyFloat 0) (Some (-9999)) {[ (131, 165) := Some 182 ]}
           [[(0, 165); (131, 165)]]).
  - discriminate.
  - simpl. apply Forall_cons_2; [intros [=]|].
    apply Forall_cons_2; [intros _ _; exists 182; reflexivity|]. apply Forall_nil_2.
Defined.

Lemma updated_fm40_chunk_TypeError_witness :
  updated_fm40_chunk (PyFloat 0) (nodata_or_zero (Some (-9999))) {[ (131, 165) := Some 182 ]}
                     [[(0, 165); (131, 165)]; [(121, 102); (0, 91)]]
  = Raised TypeError.
Proof.
  apply (updated_fm40_chunk_TypeError (PyFloat 0) (Some (-9999)) {[ (131, 165) := Some 182 ]}
           (0, 165) [(131, 165)] [[(121, 102); (0, 91)]]).
  - intros x. discriminate.
  - simpl. apply Exists_cons_tl, Exists_cons_tl, Exists_cons_hd. reflexivity.
Defined.

End ChunkLookupFacts.

(** ** Windows of a band *)

Module TileFacts.
Import Tiles.

Lemma pixel_at_read_window (band : list (list Z)) (win : Window) (r c : nat) :
  pixel_at (read_window band win) r c
  = if bool_decide (r < win_height win /\ c < win_width win)%nat
    then pixel_at band (row_off win + r) (col_off win + c)
    else None.
Proof.
  unfold pixel_at, read_window.
  change (map ?f ?l) with (f <$> l). rewrite list_lookup_fmap, lookup_take, lookup_drop.
  destruct (decide (r < win_height win)%nat) as [Hr|Hr].
  - destruct (band !! (row_off win + r)%nat) as [row|]; simpl.
    + rewrite lookup_take, lookup_drop.
      destruct (decide (c < win_width win)%nat) as [Hc|Hc].
      * now rewrite bool_decide_eq_true_2.
      * rewrite bool_decide_eq_false_2; [reflexivity|tauto].
    + now destruct (bool_decide _).
  - simpl. rewrite bool_decide_eq_false_2; [reflexivity|tauto].
Qed.

Lemma pixel_at_write_window (band : list (list Z)) (win : Window) (buf : list (list Z))
    (r c : nat) :
  pixel_at (write_window band win buf) r c
  = (fun old => if in_window win r c
                then default old (pixel_at buf (r - row_off win) (c - col_off win))
                else old) <$> pixel_at band r c.
Proof.
  unfold pixel_at, write_window. rewrite list_lookup_imap.
  destruct (band !! r) as [row|]; simpl; [|reflexivity].
  now rewrite list_lookup_imap.
Qed.

Lemma write_window_shape (band : list (list Z)) (win : Window) (buf : list (list Z)) :
  map length (write_window band win buf) = map length band.
Proof.
  unfold write_window. apply list_eq. intros r.
  change (map ?f ?l) with (f <$> l). rewrite !list_lookup_fmap, list_lookup_imap.
  destruct (band !! r) as [row|]; simpl; [|reflexivity].
  now rewrite length_imap.
Qed.

Lemma rectangular_shape (h w : nat) (band : list (list Z)) :
  rectangular h w band <-> map length band = replicate h w.
Proof.
  unfold rectangular. split.
  - intros [<- Hrows]. induction Hrows as [|row band <- _ IH]; simpl; [reflexivity|].
    now rewrite IH.
  - intros Hshape. split.
    + rewrite <- (length_map length), Hshape. apply length_replicate.
    + apply Forall_forall. intros row Hrow.
      assert (Hin : length row ∈ map length band) by (apply list_elem_of_fmap; eauto).
      rewrite Hshape in Hin. now apply elem_of_replicate in Hin as [? _].
Qed.

Lemma rectangular_pixel (h w : nat) (band : list (list Z)) (r c : nat) :
  rectangular h w band ->
  is_Some (pixel_at band r c) <-> (r < h /\ c < w)%nat.
Proof.
  intros [<- Hrows]. unfold pixel_at.
  destruct (band !! r) as [row|] eqn:Hrow; simpl.
  - rewrite lookup_lt_is_Some.
    rewrite Forall_lookup in Hrows. rewrite (Hrows _ _ Hrow).
    apply lookup_lt_Some in Hrow. intuition lia.
  - apply lookup_ge_None in Hrow. split; [intros [? [=]]|lia].
Qed.

Lemma rectangular_write_window (h w : nat) band win buf :
  rectangular h w band -> rectangular h w (write_window band win buf).
Proof. rewrite !rectangular_shape, write_window_shape. auto. Qed.

Lemma rectangular_blank (h w : nat) (fill : Z) :
  rectangular h w (replicate h (replicate w fill)).
Proof.
  split; [apply length_replicate|].
  apply Forall_replicate, length_replicate.
Qed.

Lemma pixel_at_blank (h w : nat) (fill : Z) (r c : nat) :
  (r < h)%nat -> (c < w)%nat -> pixel_at (replicate h (replicate w fill)) r c = Some fill.
Proof.
  intros Hr Hc. unfold pixel_at.
  rewrite lookup_replicate_2 by exact Hr. simpl. now apply lookup_replicate_2.
Qed.

End TileFacts.

(** ** dist.py: the sweeps, window by window *)

Module SweepLoopFacts.
Import Dist Tiles TileFacts SweepFacts.

Section Sweeps.
Context {CRS Affine : Type}.

(** A loop that writes a buffer per window never raises and keeps what
    every single write keeps. *)
Lemma for_each_write_inv (Inv : Dataset CRS Affine -> Prop) (path : string)
    (buf : Window -> list (list Z)) (windows : list Window) (w : World CRS Affine) :
  (forall ds window, Inv ds ->
     Inv (mkDataset (profile ds) (write_window (band ds) window (buf window)))) ->
  exists w',
    for_each windows (fun window => dataset_write path window (buf window)) w
      = (w', Returned tt) /\
    unwritable w' = unwritable w /\ stdout w' = stdout w /\
    (forall q, q <> path -> files w' !! q = files w !! q) /\
    (forall ds, files w !! path = Some ds -> Inv ds ->
       exists ds', files w' !! path = Some ds' /\ Inv ds').
Proof.
  intros Hstep. revert w.
  induction windows as [|window windows IH]; intros w.
  - exists w. simpl. unfold ret. repeat split; eauto.
  - simpl. unfold bindIO, dataset_write at 1.
    match goal with |- context [for_each windows ?f ?w1] =>
      destruct (IH w1) as (w' & Hrun & Hunw & Hout & Hother & Hpath) end.
    exists w'. rewrite Hrun. simpl in *.
    repeat split; auto.
    + intros q Hq. rewrite (Hother q Hq). now apply lookup_alter_ne.
    + intros ds Hds HI.
      apply (Hpath (mkDataset (profile ds) (write_window (band ds) window (buf window)))).
      * rewrite lookup_alter_eq, Hds. reflexivity.
      * now apply Hstep.
Qed.

(** A loop that computes a chunk per window and writes it: it stops at the
    first chunk that raises; the windows written before keep the
    invariant, step by step. *)
Lemma for_each_chunk_write (Inv : list Window -> Dataset CRS Affine -> Prop) (path : string)
    (chunk_of : Window -> outcome (list (list Z))) (g : list (list Z) -> list (list Z))
    (windows done : list Window) (w : World CRS Affine) :
  (forall done ds window chunk,
     window ∈ windows -> chunk_of window = Returned chunk -> Inv done ds ->
     Inv (done ++ [window])
         (mkDataset (profile ds) (write_window (band ds) window (g chunk)))) ->
  exists w' r,
    for_each windows
      (fun window => final_chunk <-- lift (chunk_of window) ;;;
                     dataset_write path window (g final_chunk)) w = (w', r) /\
    unwritable w' = unwritable w /\ stdout w' = stdout w /\
    (forall q, q <> path -> files w' !! q = files w !! q) /\
    (forall ds, files w !! path = Some ds -> Inv done ds ->
       exists processed ds',
         files w' !! path = Some ds' /\ Inv (done ++ processed) ds' /\
         (Forall (fun window => exists chunk, chunk_of window = Returned chunk) windows ->
          processed = windows)) /\
    (Forall (fun window => exists chunk, chunk_of window = Returned chunk) windows ->
     r = Returned tt).
Proof.
  revert done w.
  induction windows as [|window windows IH]; intros done w Hstep.
  - exists w, (Returned tt). simpl. unfold ret. repeat split; auto.
    intros ds Hds HI. exists [], ds. rewrite app_nil_r. auto.
  - simpl. unfold bindIO at 1, bindIO at 1, lift at 1.
    destruct (chunk_of window) as [chunk|e] eqn:Hchunk.
    + unfold dataset_write at 1.
      match goal with |- context [for_each windows ?f ?w1] =>
        destruct (IH (done ++ [window]) w1) as (w' & r & Hrun & Hunw & Hout & Hother & Hpath & Hok)
      end.
      { intros done' ds window' chunk' Hin. apply Hstep. now right. }
      exists w', r. rewrite Hrun. simpl in *.
      split; [reflexivity|]. split; [exact Hunw|]. split; [exact Hout|].
      split; [|split].
      * intros q Hq. rewrite (Hother q Hq). now apply lookup_alter_ne.
      * intros ds Hds HI.
        destruct (Hpath (mkDataset (profile ds) (write_window (band ds) window (g chunk))))
          as (processed & ds' & Hds' & HI' & Hall).
        { rewrite lookup_alter_eq, Hds. reflexivity. }
        { apply Hstep; [now left|exact Hchunk|exact HI]. }
        exists (window :: processed), ds'. split; [exact Hds'|].
        split; [now rewrite <- app_assoc in HI'|].
        intros Hall'. apply Forall_cons_1 in Hall' as [_ Hall']. now rewrite (Hall Hall').
      * intros Hall'. apply Forall_cons_1 in Hall' as [_ Hall']. auto.
    + exists w, (Raised e). split; [reflexivity|]. repeat split; auto.
      * intros ds Hds HI. exists [], ds. rewrite app_nil_r. split; [exact Hds|].
        split; [exact HI|]. intros Hall. apply Forall_cons_1 in Hall as [[chunk Hc] _].
        congruence.
      * intros Hall. apply Forall_cons_1 in Hall as [[chunk Hc] _]. congruence.
Qed.

End Sweeps.
End SweepLoopFacts.

(** ** dist.py: what a conversion leaves on disk *)

Module ConvertSweepFacts.
Import Dist DistFacts Tiles TileFacts SweepFacts SweepLoopFacts.

(** A pixel a conversion with this time code may write. *)
Lemma dist_pixel_cases (time_code : option Z) (v : Z) :
  (forall tc, time_code = Some tc -> 1 <= tc <= 3) ->
  dist_pixel time_code v = dist_nodata \/
  exists tc sev, time_code = Some tc /\ 1 <= sev <= 3 /\
                 dist_pixel time_code v = 100 + 10 * sev + tc.
Proof.
  intros Htc. destruct time_code as [tc|]; [|now left].
  specialize (Htc tc eq_refl).
  destruct (severityCode v) as [sev|] eqn:Hsev.
  - right. exists tc, sev. split; [reflexivity|].
    split; [apply severityCode_cases in Hsev; lia|].
    apply dist_pixel_key; [lia|exact Hsev].
  - left. now apply dist_pixel_other.
Qed.

Lemma get_time_code_range fire_year effective_year time_code :
  get_time_code fire_year effective_year = Returned time_code ->
  forall tc, time_code = Some tc -> 1 <= tc <= 3.
Proof.
  unfold get_time_code. destruct (effective_year <? fire_year); [discriminate|].
  intros [= <-] tc Htc%time_code_of_range. lia.
Qed.

Section Sweeps.
Context {CRS Affine : Type}.
Variable warped_read : WarpedVRT CRS Affine -> Window -> list (list Z).
Variable warped_block_windows : WarpedVRT CRS Affine -> list Window.

(** A conversion whose files open: it returns the output path, and the
    output has the grid of the alignment raster, is uint16 with nodata 0,
    and holds only nodata and codes [100 + 10 * sev + tc] that all carry
    the one time code of the run; no other file is touched. *)
Theorem convert_bs_to_dist_output bs_raster_path fire_year effective_year
    output_dist_path align_to (w : World CRS Affine) src alignment_src :
  fire_year <= effective_year ->
  files w !! bs_raster_path = Some src ->
  files w !! align_to = Some alignment_src ->
  output_dist_path ∉ unwritable w ->
  output_dist_path <> bs_raster_path ->
  output_dist_path <> align_to ->
  exists w' ds time_code,
    convert_bs_to_dist warped_read warped_block_windows
      bs_raster_path fire_year effective_year output_dist_path align_to w
      = (w', Returned output_dist_path) /\
    get_time_code fire_year effective_year = Returned time_code /\
    files w' !! output_dist_path = Some ds /\
    profile ds = mkProfile (crs (profile alignment_src)) (transform (profile alignment_src))
                           (width (profile alignment_src)) (height (profile alignment_src))
                           uint16 (Some 0)
                           (warped_block_windows (aligned_vrt alignment_src src)) /\
    rectangular (height (profile alignment_src)) (width (profile alignment_src)) (band ds) /\
    Forall (Forall (fun v => v = 0 \/
                             exists tc sev, time_code = Some tc /\ 1 <= sev <= 3 /\
                                            v = 100 + 10 * sev + tc)) (band ds) /\
    (forall q, q <> output_dist_path -> files w' !! q = files w !! q).
Proof.
  intros Hle Hsrc Halign Hrw _ _.
  set (time_code := time_code_of (effective_year - fire_year)).
  assert (Htc : get_time_code fire_year effective_year = Returned time_code).
  { unfold get_time_code. destruct (Z.ltb_spec effective_year fire_year); [lia|reflexivity]. }
  pose proof (get_time_code_range _ _ _ Htc) as Hrange.
  set (w0 := match time_code with
             | None => mkWorld (files w) (unwritable w)
                               (stdout w ++ [MsgStaleFire fire_year effective_year])
             | Some _ => w
             end).
  assert (Hw0 : (match time_code with
                 | None => print (MsgStaleFire fire_year effective_year)
                 | Some _ => ret tt
                 end) w = (w0, Returned tt)).
  { subst w0. destruct time_code; [|reflexivity]. unfold ret. now destruct w. }
  assert (Hfiles : files w0 = files w) by (subst w0; now destruct time_code).
  assert (Hunw : unwritable w0 = unwritable w) by (subst w0; now destruct time_code).
  clearbody w0.
  set (aligned_src := aligned_vrt alignment_src src).
  set (p := mkProfile (crs (profile alignment_src)) (transform (profile alignment_src))
                      (width (profile alignment_src)) (height (profile alignment_src))
                      uint16 (Some 0) (warped_block_windows aligned_src)).
  set (blank := replicate (height p) (replicate (width p) 0)).
  set (w1 := mkWorld (<[output_dist_path := mkDataset p blank]> (files w0))
                     (unwritable w0) (stdout w0)).
  set (Pix := fun v : Z => v = 0 \/
                           exists tc sev, time_code = Some tc /\ 1 <= sev <= 3 /\
                                          v = 100 + 10 * sev + tc).
  set (Inv := fun ds : Dataset CRS Affine =>
                profile ds = p /\ rectangular (height p) (width p) (band ds) /\
                Forall (Forall Pix) (band ds)).
  destruct (for_each_write_inv Inv output_dist_path
              (fun window => dist_data time_code (warped_read aligned_src window))
              (warped_block_windows aligned_src) w1)
    as (w2 & Hrun & _ & _ & Hother & Hpath).
  { intros ds window (Hp & Hrect & Hpix).
    split; [exact Hp|]. split; [now apply rectangular_write_window|]. simpl.
    apply write_window_Forall; [exact Hpix|].
    { unfold dist_data. apply Forall_fmap, Forall_true. intros row.
      apply Forall_fmap, Forall_true. intros v. simpl.
      destruct (dist_pixel_cases time_code v Hrange) as [->|(tc & sev & H1 & H2 & ->)].
      + now left.
      + right. eauto. } }
  destruct (Hpath (mkDataset p blank)) as (ds & Hds & Hp & Hrect & Hpix).
  { subst w1. simpl. apply lookup_insert_eq. }
  { split; [reflexivity|]. split; [apply rectangular_blank|].
    apply Forall_replicate, Forall_replicate. now left. }
  exists (mkWorld (files w2) (unwritable w2)
                  ((stdout w2 ++ [MsgCreatedDist output_dist_path])
                   ++ [MsgElapsed "convert_bs_to_dist"])), ds, time_code.
  split.
  { unfold convert_bs_to_dist.
    rewrite (time_function_returned _ _ w
               (mkWorld (files w2) (unwritable w2)
                        (stdout w2 ++ [MsgCreatedDist output_dist_path]))
               output_dist_path); [reflexivity|].
    unfold convert_bs_to_dist_body.
    rewrite (bindIO_returned _ _ w w time_code) by (unfold lift; now rewrite Htc).
    rewrite (bindIO_returned _ _ w w0 tt Hw0).
    rewrite (bindIO_returned _ _ w0 w0 src)
      by (unfold rasterio_open; now rewrite Hfiles, Hsrc).
    rewrite (bindIO_returned _ _ w0 w0 alignment_src)
      by (unfold rasterio_open; now rewrite Hfiles, Halign).
    cbv zeta.
    rewrite (bindIO_returned _ _ w0 w1 tt).
    2:{ unfold rasterio_open_w.
        rewrite bool_decide_eq_false_2 by (rewrite Hunw; exact Hrw). reflexivity. }
    rewrite (bindIO_returned _ _ w1 w2 tt Hrun). reflexivity. }
  split; [exact Htc|]. simpl. split; [exact Hds|]. split; [exact Hp|].
  split; [exact Hrect|]. split; [exact Hpix|].
  intros q Hq. rewrite (Hother q Hq). subst w1. simpl.
  rewrite lookup_insert_ne by congruence. now rewrite Hfiles.
Qed.

(** How a conversion fails.  Years out of order raise [ValueError] before
    any file is opened and before anything is printed.  Otherwise the
    files are tried in the order input, alignment raster, output, and the
    first that cannot be opened is the one named by the exception; no file
    has been created or changed. *)
Theorem convert_bs_to_dist_failure_order bs_raster_path fire_year effective_year
    output_dist_path align_to (w : World CRS Affine) :
  let run := convert_bs_to_dist warped_read warped_block_windows
               bs_raster_path fire_year effective_year output_dist_path align_to w in
  (effective_year < fire_year -> run = (w, Raised ValueError)) /\
  (fire_year <= effective_year ->
   files w !! bs_raster_path = None ->
   snd run = Raised (RasterioIOError bs_raster_path) /\ files (fst run) = files w) /\
  (fire_year <= effective_year ->
   is_Some (files w !! bs_raster_path) -> files w !! align_to = None ->
   snd run = Raised (RasterioIOError align_to) /\ files (fst run) = files w) /\
  (fire_year <= effective_year ->
   is_Some (files w !! bs_raster_path) -> is_Some (files w !! align_to) ->
   output_dist_path ∈ unwritable w ->
   snd run = Raised (RasterioIOError output_dist_path) /\ files (fst run) = files w).
Proof.
  intros run. subst run.
  assert (Hvalid : fire_year <= effective_year ->
            get_time_code fire_year effective_year
            = Returned (time_code_of (effective_year - fire_year))).
  { intros Hle. unfold get_time_code.
    destruct (Z.ltb_spec effective_year fire_year); [lia|reflexivity]. }
  assert (Hfiles : forall tc : option Z,
            files (match tc with
                   | None => mkWorld (files w) (unwritable w)
                                     (stdout w ++ [MsgStaleFire fire_year effective_year])
                   | Some _ => w
                   end) = files w) by (now intros [?|]).
  split; [|split; [|split]].
  - intros Hlt. unfold convert_bs_to_dist. apply time_function_raised.
    unfold convert_bs_to_dist_body. apply bindIO_raised.
    unfold lift, get_time_code.
    destruct (Z.ltb_spec effective_year fire_year); [reflexivity|lia].
  - intros Hle Hsrc.
    pose proof (convert_bs_to_dist_body_run warped_read warped_block_windows
                  bs_raster_path fire_year effective_year output_dist_path align_to w _
                  (Hvalid Hle)) as Hrun.
    cbv zeta in Hrun. rewrite Hsrc in Hrun.
    unfold convert_bs_to_dist. rewrite (time_function_raised _ _ _ _ _ Hrun).
    split; [reflexivity|apply Hfiles].
  - intros Hle [src Hsrc] Halign.
    pose proof (convert_bs_to_dist_body_run warped_read warped_block_windows
                  bs_raster_path fire_year effective_year output_dist_path align_to w _
                  (Hvalid Hle)) as Hrun.
    cbv zeta in Hrun. rewrite Hsrc, Halign in Hrun.
    unfold convert_bs_to_dist. rewrite (time_function_raised _ _ _ _ _ Hrun).
    split; [reflexivity|apply Hfiles].
  - intros Hle [src Hsrc] [al Halign] Hro.
    pose proof (convert_bs_to_dist_body_run warped_read warped_block_windows
                  bs_raster_path fire_year effective_year output_dist_path align_to w _
                  (Hvalid Hle)) as Hrun.
    cbv zeta in Hrun. rewrite Hsrc, Halign in Hrun.
    rewrite bool_decide_eq_true_2 in Hrun by exact Hro.
    unfold convert_bs_to_dist. rewrite (time_function_raised _ _ _ _ _ Hrun).
    split; [reflexivity|apply Hfiles].
Qed.

End Sweeps.

Import Example.

Lemma convert_bs_to_dist_output_witness :
  exists w' ds time_code,
    convert_bs_to_dist same_grid_read same_grid_windows
      "bs_2007.tif" 2012 2018 "dist_2012.tif" "fm40.tif" world
      = (w', Returned "dist_2012.tif") /\
    get_time_code 2012 2018 = Returned time_code /\
    files w' !! "dist_2012.tif" = Some ds /\
    profile ds = mkProfile (crs (profile fm40)) (transform (profile fm40))
                           (width (profile fm40)) (height (profile fm40))
                           uint16 (Some 0)
                           (same_grid_windows (aligned_vrt fm40 bs_2007)) /\
    rectangular (height (profile fm40)) (width (profile fm40)) (band ds) /\
    Forall (Forall (fun v => v = 0 \/
                             exists tc sev, time_code = Some tc /\ 1 <= sev <= 3 /\
                                            v = 100 + 10 * sev + tc)) (band ds) /\
    (forall q, q <> "dist_2012.tif" -> files w' !! q = files world !! q).
Proof.
  apply (convert_bs_to_dist_output same_grid_read same_grid_windows
           "bs_2007.tif" 2012 2018 "dist_2012.tif" "fm40.tif" world bs_2007 fm40).
  - lia.
  - reflexivity.
  - reflexivity.
  - vm_compute. intros H. inversion H.
  - discriminate.
  - discriminate.
Defined.

Lemma convert_bs_to_dist_failure_order_witness :
  snd (convert_bs_to_dist same_grid_read same_grid_windows
         "bs_2007.tif" 2012 2018 "dist_2012.tif" "absent.tif" world)
    = Raised (RasterioIOError "absent.tif") /\
  files (fst (convert_bs_to_dist same_grid_read same_grid_windows
                "bs_2007.tif" 2012 2018 "dist_2012.tif" "absent.tif" world))
    = files world.
Proof.
  pose proof (convert_bs_to_dist_failure_order same_grid_read same_grid_windows
                "bs_2007.tif" 2012 2018 "dist_2012.tif" "absent.tif" world) as H.
  cbv zeta in H. destruct H as (_ & _ & H & _).
  apply H.
  - lia.
  - vm_compute. eauto.
  - reflexivity.
Defined.

End ConvertSweepFacts.

(** ** dist.py: what a combination leaves on disk *)

Module CombineSweepFacts.
Import Dist DistFacts Tiles TileFacts SweepFacts SweepLoopFacts CombineChunkFacts.

Section Sweeps.
Context {CRS Affine : Type}.

Lemma mapIO_rasterio_open_all (paths : list string) (src_files : list (Dataset CRS Affine))
    (w : World CRS Affine) :
  Forall2 (fun path ds => files w !! path = Some ds) paths src_files ->
  mapIO rasterio_open paths w = (w, Returned src_files).
Proof.
  induction 1 as [|path ds paths src_files Hds _ IH]; [reflexivity|]. simpl.
  rewrite (bindIO_returned _ _ w w ds) by (unfold rasterio_open; now rewrite Hds).
  now rewrite (bindIO_returned _ _ w w src_files IH).
Qed.

Lemma mapIO_rasterio_open_missing (pre post : list string) (path : string)
    (w : World CRS Affine) :
  Forall (fun q => is_Some (files w !! q)) pre ->
  files w !! path = None ->
  mapIO rasterio_open (pre ++ path :: post) w = (w, Raised (RasterioIOError path)).
Proof.
  intros Hpre Hpath.
  induction Hpre as [|q pre [ds Hds] _ IH]; simpl.
  - apply bindIO_raised. unfold rasterio_open. now rewrite Hpath.
  - rewrite (bindIO_returned _ _ w w ds) by (unfold rasterio_open; now rewrite Hds).
    now apply bindIO_raised.
Qed.

(** What the function does once its inputs are open, given what the sweep
    did. *)
Lemma combine_dist_rasters_after_open (path : string) (paths : list string)
    (output_path : string) (w w2 : World CRS Affine) src_files (r : outcome unit) :
  let w1 := mkWorld (files w) (unwritable w)
                    (stdout w ++ [MsgCombining (length (path :: paths)) output_path]) in
  mapIO rasterio_open (path :: paths) w1 = (w1, Returned src_files) ->
  combine_sweep src_files output_path w1 = (w2, r) ->
  exists w',
    combine_dist_rasters (path :: paths) output_path w = (w', Returned (Some output_path)) /\
    files w' = files w2 /\ unwritable w' = unwritable w2 /\
    stdout w' = stdout w2
                ++ match r with
                   | Raised e => [MsgTrouble output_path e]
                   | Returned _ => []
                   end
                ++ [MsgCreatedCombined output_path; MsgElapsed "combine_dist_rasters"].
Proof.
  intros w1 Hopen Hsweep.
  set (w3 := match r with
             | Returned _ => w2
             | Raised e => mkWorld (files w2) (unwritable w2)
                                   (stdout w2 ++ [MsgTrouble output_path e])
             end).
  assert (Htry : try_except (combine_sweep src_files output_path)
                            (fun e => print (MsgTrouble output_path e)) w1
                 = (w3, Returned tt)).
  { unfold try_except. rewrite Hsweep. subst w3. now destruct r as [[]|e]. }
  exists (mkWorld (files w3) (unwritable w3)
                  ((stdout w3 ++ [MsgCreatedCombined output_path])
                   ++ [MsgElapsed "combine_dist_rasters"])).
  split.
  - unfold combine_dist_rasters.
    rewrite (time_function_returned _ _ w
               (mkWorld (files w3) (unwritable w3)
                        (stdout w3 ++ [MsgCreatedCombined output_path]))
               (Some output_path)); [reflexivity|].
    unfold combine_dist_rasters_body.
    rewrite (bindIO_returned _ _ w w1 tt) by reflexivity.
    rewrite (bindIO_returned _ _ w1 w1 _ Hopen).
    rewrite (bindIO_returned _ _ w1 w3 tt Htry). reflexivity.
  - subst w3. destruct r as [[]|e]; simpl; repeat split;
      now rewrite <- ?app_assoc.
Qed.

(** Whatever the sweep does, it prints nothing and touches no file but the
    output. *)
Lemma combine_sweep_frame (src_files : list (Dataset CRS Affine)) (output_path : string)
    (w : World CRS Affine) :
  exists w' r,
    combine_sweep src_files output_path w = (w', r) /\
    stdout w' = stdout w /\
    (forall q, q <> output_path -> files w' !! q = files w !! q).
Proof.
  unfold combine_sweep. destruct src_files as [|first rest].
  - exists w, (Raised IndexError). auto.
  - cbv zeta. unfold bindIO at 1, rasterio_open_w at 1.
    destruct (bool_decide (output_path ∈ unwritable w)).
    + exists w, (Raised (RasterioIOError output_path)). auto.
    + match goal with |- context [for_each ?ws ?body ?w1] =>
        destruct (for_each_chunk_write (fun _ _ => True) output_path
                    (fun window => combine_chunk (default 0 (nodata (profile first)))
                                     (map (fun src => read_window (band src) window)
                                          (first :: rest)))
                    (map (map (astype (dtype_of (profile first)))))
                    ws [] w1)
          as (w' & r & Hrun & _ & Hout & Hother & _)
      end; [auto|].
      exists w', r. split; [exact Hrun|]. split; [exact Hout|].
      intros q Hq. rewrite (Hother q Hq). simpl. now apply lookup_insert_ne.
Qed.

(** Once its inputs open, the function cannot raise: whatever goes wrong
    while the output is created or the windows are merged is caught and
    printed, the success message follows all the same, and the output path
    is returned.  No file other than the output is touched. *)
Theorem combine_dist_rasters_never_raises (dist_raster_paths : list string)
    (output_path : string) (w : World CRS Affine) :
  dist_raster_paths <> [] ->
  Forall (fun path => is_Some (files w !! path)) dist_raster_paths ->
  exists w' trouble,
    combine_dist_rasters dist_raster_paths output_path w
      = (w', Returned (Some output_path)) /\
    (forall q, q <> output_path -> files w' !! q = files w !! q) /\
    stdout w' = stdout w
                ++ [MsgCombining (length dist_raster_paths) output_path]
                ++ trouble
                ++ [MsgCreatedCombined output_path; MsgElapsed "combine_dist_rasters"] /\
    (trouble = [] \/ exists e, trouble = [MsgTrouble output_path e]).
Proof.
  intros Hne Hopen.
  destruct dist_raster_paths as [|path paths]; [congruence|].
  set (w1 := mkWorld (files w) (unwritable w)
                     (stdout w ++ [MsgCombining (length (path :: paths)) output_path])).
  destruct (mapIO_rasterio_open (path :: paths) w1 Hopen) as (src_files & Hsrc & _).
  destruct (combine_sweep_frame src_files output_path w1) as (w2 & r & Hsweep & Hout & Hother).
  destruct (combine_dist_rasters_after_open path paths output_path w w2 src_files r Hsrc Hsweep)
    as (w' & Hrun & Hfiles & _ & Hstdout).
  exists w', (match r with Raised e => [MsgTrouble output_path e] | Returned _ => [] end).
  split; [exact Hrun|]. split; [|split].
  - intros q Hq. rewrite Hfiles. now rewrite (Hother q Hq).
  - rewrite Hstdout, Hout. subst w1. simpl. now rewrite <- app_assoc.
  - destruct r; eauto.
Qed.

(** A missing input does reach the caller: the inputs are opened in order
    before the [try], and the first that is missing is named by the
    exception.  Only the 'Combining' line has been printed; no file is
    created. *)
Theorem combine_dist_rasters_missing_input (pre post : list string) (path output_path : string)
    (w : World CRS Affine) :
  Forall (fun q => is_Some (files w !! q)) pre ->
  files w !! path = None ->
  combine_dist_rasters (pre ++ path :: post) output_path w
  = (mkWorld (files w) (unwritable w)
             (stdout w ++ [MsgCombining (length (pre ++ path :: post)) output_path]),
     Raised (RasterioIOError path)).
Proof.
  intros Hpre Hpath.
  unfold combine_dist_rasters. apply time_function_raised.
  unfold combine_dist_rasters_body.
  destruct (pre ++ path :: post) as [|p ps] eqn:Hpaths.
  { now destruct pre. }
  set (w1 := mkWorld (files w) (unwritable w)
                     (stdout w ++ [MsgCombining (length (p :: ps)) output_path])).
  rewrite (bindIO_returned _ _ w w1 tt) by reflexivity.
  apply bindIO_raised. rewrite <- Hpaths.
  now apply mapIO_rasterio_open_missing.
Qed.

End Sweeps.

Import Example.

Lemma combine_dist_rasters_never_raises_witness :
  exists w' trouble,
    combine_dist_rasters ["dist_2017.tif"; "fm40.tif"] "combined.tif" world
      = (w', Returned (Some "combined.tif")) /\
    (forall q, q <> "combined.tif" -> files w' !! q = files world !! q) /\
    stdout w' = stdout world
                ++ [MsgCombining (length ["dist_2017.tif"; "fm40.tif"]) "combined.tif"]
                ++ trouble
                ++ [MsgCreatedCombined "combined.tif"; MsgElapsed "combine_dist_rasters"] /\
    (trouble = [] \/ exists e, trouble = [MsgTrouble "combined.tif" e]).
Proof.
  apply (combine_dist_rasters_never_raises ["dist_2017.tif"; "fm40.tif"] "combined.tif" world).
  - discriminate.
  - apply Forall_cons_2; [vm_compute; eauto|].
    apply Forall_cons_2; [vm_compute; eauto|]. apply Forall_nil_2.
Defined.

Lemma combine_dist_rasters_missing_input_witness :
  combine_dist_rasters (["dist_2017.tif"] ++ "dist_2018.tif" :: ["fm40.tif"]) "combined.tif" world
  = (mkWorld (files world) (unwritable world)
             (stdout world
              ++ [MsgCombining (length (["dist_2017.tif"] ++ "dist_2018.tif" :: ["fm40.tif"]))
                               "combined.tif"]),
     Raised (RasterioIOError "dist_2018.tif")).
Proof.
  apply (combine_dist_rasters_missing_input ["dist_2017.tif"] ["fm40.tif"] "dist_2018.tif"
           "combined.tif" world).
  - apply Forall_cons_2; [vm_compute; eauto|]. apply Forall_nil_2.
  - reflexivity.
Defined.

End CombineSweepFacts.

(** ** dist.py: the combination, pixel by pixel over the whole grid *)

Module CombineTilingFacts.
Import Dist DistFacts RankingFacts Tiles TileFacts SweepFacts SweepLoopFacts.
Import CombineChunkFacts CombineSweepFacts.

Lemma read_window_shape (band1 band2 : list (list Z)) (win : Window) :
  map length band1 = map length band2 ->
  map length (read_window band1 win) = map length (read_window band2 win).
Proof.
  intros Hshape.
  assert (Hlen : forall band : list (list Z),
             map length (read_window band win)
             = map (fun n => Nat.min (win_width win) (n - col_off win))
                   (take (win_height win) (drop (row_off win) (map length band)))).
  { intros band. unfold read_window.
    change (map ?f ?l) with (f <$> l).
    rewrite <- fmap_drop, <- fmap_take, <- !list_fmap_compose.
    apply list_fmap_ext. intros i row _. simpl.
    now rewrite length_take, length_drop. }
  now rewrite !Hlen, Hshape.
Qed.

Lemma pixel_at_concat (band : list (list Z)) (r c : nat) :
  is_Some (pixel_at band r c) -> concat band <> [].
Proof.
  intros [x Hx] Hnil. unfold pixel_at in Hx.
  destruct (band !! r) as [row|] eqn:Hrow; [simpl in Hx|discriminate].
  assert (Hin : x ∈ concat band).
  { apply list_elem_of_In, in_concat. exists row.
    split; apply list_elem_of_In; eapply list_elem_of_lookup_2; eauto. }
  rewrite Hnil in Hin. now apply elem_of_nil in Hin.
Qed.

Lemma pixel_at_map (f : Z -> Z) (band : list (list Z)) (r c : nat) :
  pixel_at (map (map f) band) r c = f <$> pixel_at band r c.
Proof.
  unfold pixel_at. change (map ?g ?l) with (g <$> l). rewrite list_lookup_fmap.
  destruct (band !! r) as [row|]; simpl; [|reflexivity].
  change (map ?g ?l) with (g <$> l). now rewrite list_lookup_fmap.
Qed.

Section Stack.
Context {CRS Affine : Type}.

Lemma pixel_stack_read_window (src_files : list (Dataset CRS Affine)) (win : Window)
    (r c : nat) :
  (r < win_height win)%nat -> (c < win_width win)%nat ->
  pixel_stack (map (fun src => read_window (band src) win) src_files) r c
  = pixel_stack (map band src_files) (row_off win + r) (col_off win + c).
Proof.
  intros Hr Hc. induction src_files as [|src src_files IH]; [reflexivity|].
  change (pixel_stack (map (fun src => read_window (band src) win) (src :: src_files)) r c)
    with (match pixel_at (read_window (band src) win) r c with
          | Some x => x :: pixel_stack (map (fun src => read_window (band src) win) src_files) r c
          | None => pixel_stack (map (fun src => read_window (band src) win) src_files) r c
          end).
  change (pixel_stack (map band (src :: src_files)) (row_off win + r) (col_off win + c))
    with (match pixel_at (band src) (row_off win + r) (col_off win + c) with
          | Some x => x :: pixel_stack (map band src_files) (row_off win + r) (col_off win + c)
          | None => pixel_stack (map band src_files) (row_off win + r) (col_off win + c)
          end).
  rewrite pixel_at_read_window, bool_decide_eq_true_2 by auto.
  now rewrite IH.
Qed.

(** The stack at a pixel of rasters that all span the grid. *)
Lemma pixel_stack_bands (h w : nat) (src_files : list (Dataset CRS Affine)) (r c : nat) :
  Forall (fun src => rectangular h w (band src)) src_files ->
  (r < h)%nat -> (c < w)%nat ->
  Forall2 (fun src x => pixel_at (band src) r c = Some x) src_files
          (pixel_stack (map band src_files) r c).
Proof.
  intros Hrect Hr Hc. induction Hrect as [|src src_files Hsrc _ IH]; [constructor|].
  destruct (proj2 (rectangular_pixel h w (band src) r c Hsrc) (conj Hr Hc)) as [x Hx].
  change (pixel_stack (map band (src :: src_files)) r c)
    with (match pixel_at (band src) r c with
          | Some x => x :: pixel_stack (map band src_files) r c
          | None => pixel_stack (map band src_files) r c
          end).
  rewrite Hx. now constructor.
Qed.

(** The chunk merged for a window that meets the grid. *)
Lemma window_chunk (h w : nat) (nodata_val : Z) (first : Dataset CRS Affine)
    (rest : list (Dataset CRS Affine)) (win : Window) :
  Forall (fun src => rectangular h w (band src)) (first :: rest) ->
  window_meets h w win ->
  combine_chunk nodata_val (map (fun src => read_window (band src) win) (first :: rest))
  = Returned
      (map (fun r => map (merged_pixel nodata_val
                            (map (fun src => read_window (band src) win) (first :: rest)) r)
                         (seq 0 (length (default [] (read_window (band first) win !! r)))))
           (seq 0 (length (read_window (band first) win)))).
Proof.
  intros Hrect (Hro & Hco & Hwh & Hww).
  apply Forall_cons_1 in Hrect as [Hfirst Hrest].
  cbn [map]. apply combine_chunk_run.
  - apply Forall_fmap. eapply Forall_impl; [exact Hrest|]. intros src Hsrc. simpl.
    apply read_window_shape.
    apply rectangular_shape in Hfirst. apply rectangular_shape in Hsrc. congruence.
  - apply (pixel_at_concat _ 0 0).
    rewrite pixel_at_read_window, bool_decide_eq_true_2 by lia.
    apply (rectangular_pixel h w); [exact Hfirst|lia].
Qed.

(** The pixel of that chunk that lands on [(r, c)]. *)
Lemma window_chunk_pixel (h w : nat) (nodata_val : Z) (f : Z -> Z)
    (first : Dataset CRS Affine) (rest : list (Dataset CRS Affine)) (win : Window) (r c : nat) :
  Forall (fun src => rectangular h w (band src)) (first :: rest) ->
  (r < h)%nat -> (c < w)%nat -> in_window win r c = true ->
  pixel_at
    (map (map f)
       (map (fun r => map (merged_pixel nodata_val
                             (map (fun src => read_window (band src) win) (first :: rest)) r)
                          (seq 0 (length (default [] (read_window (band first) win !! r)))))
            (seq 0 (length (read_window (band first) win)))))
    (r - row_off win) (c - col_off win)
  = Some (f (merged_pixel nodata_val (map band (first :: rest)) r c)).
Proof.
  intros Hrect Hr Hc Hin.
  unfold in_window in Hin. apply andb_true_iff in Hin as [Hrow Hcol].
  apply bool_decide_eq_true_1 in Hrow. apply bool_decide_eq_true_1 in Hcol.
  rewrite pixel_at_map, tabulate_lookup.
  rewrite pixel_at_read_window, bool_decide_eq_true_2 by lia.
  replace (row_off win + (r - row_off win))%nat with r by lia.
  replace (col_off win + (c - col_off win))%nat with c by lia.
  apply Forall_cons_1 in Hrect as [Hfirst Hrest].
  destruct (proj2 (rectangular_pixel h w (band first) r c Hfirst) (conj Hr Hc)) as [x ->].
  cbn [fmap option_fmap option_map]. do 2 f_equal. unfold merged_pixel.
  rewrite pixel_stack_read_window by lia.
  replace (row_off win + (r - row_off win))%nat with r by lia.
  replace (col_off win + (c - col_off win))%nat with c by lia.
  reflexivity.
Qed.

Lemma covered_app (done : list Window) (win : Window) (r c : nat) :
  covered (done ++ [win]) r c = covered done r c || in_window win r c.
Proof. unfold covered. rewrite existsb_app. simpl. now rewrite orb_false_r. Qed.

(** The whole output of a combination of rasters that share a grid: the
    sweep succeeds, nothing is caught, the output has the profile of the
    first raster, and each of its pixels that lies in a block window is the
    merge of the rasters' pixels at that place, cast to the first raster's
    dtype, whatever way the windows tile or overlap; a pixel no window
    covers reads as the nodata. *)
Theorem combine_dist_rasters_pixels (path : string) (paths : list string)
    (output_path : string) (w : World CRS Affine)
    (first : Dataset CRS Affine) (rest : list (Dataset CRS Affine)) :
  Forall2 (fun q ds => files w !! q = Some ds) (path :: paths) (first :: rest) ->
  output_path ∉ unwritable w ->
  output_path ∉ path :: paths ->
  Forall (fun src => rectangular (height (profile first)) (width (profile first)) (band src))
         (first :: rest) ->
  Forall (window_meets (height (profile first)) (width (profile first)))
         (block_windows (profile first)) ->
  exists w' ds,
    combine_dist_rasters (path :: paths) output_path w = (w', Returned (Some output_path)) /\
    stdout w' = stdout w ++ [ MsgCombining (length (path :: paths)) output_path;
                              MsgCreatedCombined output_path;
                              MsgElapsed "combine_dist_rasters" ] /\
    files w' !! output_path = Some ds /\
    profile ds = profile first /\
    rectangular (height (profile first)) (width (profile first)) (band ds) /\
    forall r c, (r < height (profile first))%nat -> (c < width (profile first))%nat ->
      exists stack code,
        Forall2 (fun src x => pixel_at (band src) r c = Some x) (first :: rest) stack /\
        combine_pixel (default 0 (nodata (profile first))) stack = Returned code /\
        pixel_at (band ds) r c
        = Some (if covered (block_windows (profile first)) r c
                then astype (dtype_of (profile first)) code
                else default 0 (nodata (profile first))).
Proof.
  intros Hfiles Hrw _ Hrect Hwins.
  set (p := profile first) in *.
  set (h := height p) in *. set (w0 := width p) in *.
  set (nodata_val := default 0 (nodata p)).
  set (dt := dtype_of p).
  set (V := fun r c => astype dt (merged_pixel nodata_val (map band (first :: rest)) r c)).
  set (Inv := fun (done : list Window) (ds : Dataset CRS Affine) =>
                profile ds = p /\ rectangular h w0 (band ds) /\
                forall r c, (r < h)%nat -> (c < w0)%nat ->
                  pixel_at (band ds) r c
                  = Some (if covered done r c then V r c else nodata_val)).
  set (w1 := mkWorld (files w) (unwritable w)
                     (stdout w ++ [MsgCombining (length (path :: paths)) output_path])).
  assert (Hopen : mapIO rasterio_open (path :: paths) w1 = (w1, Returned (first :: rest)))
    by now apply mapIO_rasterio_open_all.
  set (blank := replicate h (replicate w0 nodata_val)).
  set (w1' := mkWorld (<[output_path := mkDataset p blank]> (files w1))
                      (unwritable w1) (stdout w1)).
  set (chunk_of := fun window =>
         combine_chunk nodata_val
           (map (fun src => read_window (band src) window) (first :: rest))).
  assert (Hchunks : Forall (fun window => exists chunk, chunk_of window = Returned chunk)
                           (block_windows p)).
  { eapply Forall_impl; [exact Hwins|]. intros window Hmeets. simpl.
    eexists. subst chunk_of. cbv beta.
    now apply (window_chunk h w0). }
  destruct (for_each_chunk_write Inv output_path chunk_of (map (map (astype dt)))
              (block_windows p) [] w1')
    as (w2 & r & Hrun & Hunw & Hout & Hother & Hpath & Hok).
  { intros done ds window chunk Hin Hchunk (Hp & Hband & Hpix).
    rewrite Forall_forall in Hwins. specialize (Hwins _ Hin).
    subst chunk_of. cbv beta in Hchunk.
    rewrite (window_chunk h w0 nodata_val first rest window Hrect Hwins) in Hchunk.
    injection Hchunk as <-.
    split; [exact Hp|]. split; [now apply rectangular_write_window|].
    intros r0 c Hr Hc. cbn [band].
    rewrite pixel_at_write_window, (Hpix r0 c Hr Hc), covered_app.
    cbn [fmap option_fmap option_map]. f_equal.
    destruct (in_window window r0 c) eqn:Hwin.
    - pose proof (window_chunk_pixel h w0 nodata_val (astype dt) first rest window r0 c
                    Hrect Hr Hc Hwin) as Hpx.
      cbn [map] in Hpx. rewrite Hpx.
      now rewrite orb_true_r.
    - now rewrite orb_false_r. }
  destruct (Hpath (mkDataset p blank)) as (processed & ds & Hds & (Hp & Hband & Hpix) & Hall).
  { subst w1'. simpl. apply lookup_insert_eq. }
  { split; [reflexivity|]. split; [apply rectangular_blank|].
    intros r0 c Hr Hc. cbn [band]. subst blank.
    rewrite pixel_at_blank by assumption. reflexivity. }
  rewrite (Hall Hchunks) in Hpix. rewrite (Hok Hchunks) in Hrun. clear Hall Hok.
  assert (Hsweep : combine_sweep (first :: rest) output_path w1 = (w2, Returned tt)).
  { unfold combine_sweep. cbv zeta.
    rewrite (bindIO_returned _ _ w1 w1' tt).
    - exact Hrun.
    - unfold rasterio_open_w.
      now rewrite bool_decide_eq_false_2 by exact Hrw. }
  destruct (combine_dist_rasters_after_open path paths output_path w w2 (first :: rest)
              (Returned tt) Hopen Hsweep) as (w' & Hrun' & Hfiles' & _ & Hstdout).
  exists w', ds. split; [exact Hrun'|]. split.
  { rewrite Hstdout, Hout. subst w1' w1. simpl. now rewrite <- app_assoc. }
  split; [now rewrite Hfiles'|]. split; [exact Hp|]. split; [exact Hband|].
  intros r0 c Hr Hc.
  exists (pixel_stack (map band (first :: rest)) r0 c),
         (merged_pixel nodata_val (map band (first :: rest)) r0 c).
  pose proof (pixel_stack_bands h w0 (first :: rest) r0 c Hrect Hr Hc) as Hstack.
  split; [exact Hstack|]. split; [|exact (Hpix r0 c Hr Hc)].
  destruct (combine_pixel_spec nodata_val (pixel_stack (map band (first :: rest)) r0 c))
    as (i & code & Hcode & _).
  { intros Hnil. rewrite Hnil in Hstack. inversion Hstack. }
  unfold merged_pixel. now rewrite Hcode.
Qed.

Lemma combine_chunk_Returned (nodata_val : Z) (windows : list (list (list Z))) chunk :
  combine_chunk nodata_val windows = Returned chunk ->
  exists first rest,
    windows = first :: rest /\
    Forall (fun b => map length b = map length first) rest /\ concat first <> [].
Proof.
  destruct windows as [|first rest]; [discriminate|].
  intros Hrun. exists first, rest. split; [reflexivity|].
  destruct (decide (Forall (fun b => map length b = map length first) rest)) as [Hshape|Hshape].
  - split; [exact Hshape|]. intros Hnil.
    unfold combine_chunk in Hrun. rewrite (np_array_ok _ _ Hshape) in Hrun.
    simpl Py.bind in Hrun. rewrite bool_decide_eq_true_2 in Hrun by exact Hnil.
    discriminate.
  - unfold combine_chunk in Hrun. rewrite (np_array_mismatch _ _ Hshape) in Hrun.
    discriminate.
Qed.

(** The merge never invents a code: what holds of every pixel read holds
    of every pixel of the chunk. *)
Lemma combine_chunk_Forall (Q : Z -> Prop) (nodata_val : Z)
    (windows : list (list (list Z))) chunk :
  Forall (Forall (Forall Q)) windows ->
  combine_chunk nodata_val windows = Returned chunk ->
  Forall (Forall Q) chunk.
Proof.
  intros HQ Hrun.
  destruct (combine_chunk_Returned _ _ _ Hrun) as (first & rest & -> & Hshape & Hsize).
  rewrite (combine_chunk_run _ _ _ Hshape Hsize) in Hrun. injection Hrun as <-.
  apply Forall_fmap, Forall_forall. intros r Hr. simpl.
  apply Forall_fmap, Forall_forall. intros c Hc. simpl.
  apply elem_of_seq in Hr. apply elem_of_seq in Hc.
  assert (Hpix : is_Some (pixel_at first r c)).
  { unfold pixel_at. destruct (first !! r) as [row|]; simpl in *; [|lia].
    apply lookup_lt_is_Some. lia. }
  pose proof (merged_pixel_Returned nodata_val first rest r c Hshape Hpix) as Hcode.
  destruct (combine_pixel_spec nodata_val (pixel_stack (first :: rest) r c))
    as (i & code & Hrun & Hi & _).
  { intros Hnil. rewrite Hnil in Hcode. discriminate. }
  rewrite Hrun in Hcode. injection Hcode as <-.
  assert (Hin : code ∈ pixel_stack (first :: rest) r c)
    by (eapply list_elem_of_lookup_2; eauto).
  unfold pixel_stack in Hin. apply list_elem_of_omap in Hin as (band0 & Hband0 & Hx).
  rewrite Forall_forall in HQ. specialize (HQ _ Hband0).
  destruct (band0 !! r) as [row|] eqn:Hrow; [simpl in Hx|discriminate].
  rewrite Forall_lookup in HQ. specialize (HQ _ _ Hrow).
  rewrite Forall_lookup in HQ. exact (HQ _ _ Hx).
Qed.

Lemma read_window_Forall (Q : Z -> Prop) (band0 : list (list Z)) (win : Window) :
  Forall (Forall Q) band0 -> Forall (Forall Q) (read_window band0 win).
Proof.
  intros HQ. unfold read_window. apply Forall_fmap.
  apply Forall_take, Forall_drop.
  eapply Forall_impl; [exact HQ|]. intros row Hrow. simpl.
  now apply Forall_take, Forall_drop.
Qed.

Lemma astype_uint16_code (v : Z) :
  dist_code_or_nodata v -> astype uint16 v = v /\ dist_code_or_nodata v.
Proof.
  intros Hv. split; [|exact Hv]. destruct Hv as [[r Hr]| ->]; [|reflexivity].
  apply ranked_cases in Hr.
  repeat (apply elem_of_cons in Hr as [[= -> ->]|Hr]; [reflexivity|]).
  now apply elem_of_nil in Hr.
Qed.

(** Rasters that hold only ranked codes and the nodata 0, the first being
    uint16 with nodata 0 (as the conversion writes them), combine into a
    raster that holds only ranked codes and 0, even when the sweep is cut
    short by an exception and the output is left partly written. *)
Theorem combine_dist_rasters_keeps_codes (path : string) (paths : list string)
    (output_path : string) (w : World CRS Affine)
    (first : Dataset CRS Affine) (rest : list (Dataset CRS Affine)) :
  Forall2 (fun q ds => files w !! q = Some ds) (path :: paths) (first :: rest) ->
  output_path ∉ unwritable w ->
  output_path ∉ path :: paths ->
  dtype_of (profile first) = uint16 ->
  nodata (profile first) = Some 0 ->
  Forall (fun src => Forall (Forall dist_code_or_nodata) (band src)) (first :: rest) ->
  exists w' ds,
    combine_dist_rasters (path :: paths) output_path w = (w', Returned (Some output_path)) /\
    files w' !! output_path = Some ds /\
    profile ds = profile first /\
    Forall (Forall dist_code_or_nodata) (band ds).
Proof.
  intros Hfiles Hrw _ Hdt Hnd Hcodes.
  set (p := profile first) in *.
  set (w1 := mkWorld (files w) (unwritable w)
                     (stdout w ++ [MsgCombining (length (path :: paths)) output_path])).
  assert (Hopen : mapIO rasterio_open (path :: paths) w1 = (w1, Returned (first :: rest)))
    by now apply mapIO_rasterio_open_all.
  set (blank := replicate (height p) (replicate (width p) (default 0 (nodata p)))).
  set (w1' := mkWorld (<[output_path := mkDataset p blank]> (files w1))
                      (unwritable w1) (stdout w1)).
  set (Inv := fun (_ : list Window) (ds : Dataset CRS Affine) =>
                profile ds = p /\ Forall (Forall dist_code_or_nodata) (band ds)).
  destruct (for_each_chunk_write Inv output_path
              (fun window => combine_chunk (default 0 (nodata p))
                               (map (fun src => read_window (band src) window) (first :: rest)))
              (map (map (astype (dtype_of p))))
              (block_windows p) [] w1')
    as (w2 & r & Hrun & _ & _ & _ & Hpath & _).
  { intros done ds window chunk _ Hchunk [Hp Hband]. split; [exact Hp|]. cbn [band].
    apply SweepFacts.write_window_Forall; [exact Hband|].
    apply (combine_chunk_Forall dist_code_or_nodata) in Hchunk.
    - rewrite Hdt. apply Forall_fmap. eapply Forall_impl; [exact Hchunk|].
      intros row Hrow. cbv beta. apply Forall_fmap. eapply Forall_impl; [exact Hrow|].
      intros v Hv. unfold compose. now rewrite (proj1 (astype_uint16_code v Hv)).
    - apply Forall_fmap. eapply Forall_impl; [exact Hcodes|].
      intros src Hsrc. simpl. now apply read_window_Forall. }
  destruct (Hpath (mkDataset p blank)) as (processed & ds & Hds & [Hp Hband] & _).
  { subst w1'. simpl. apply lookup_insert_eq. }
  { split; [reflexivity|]. cbn [band]. subst blank. rewrite Hnd. simpl.
    apply Forall_replicate, Forall_replicate. now right. }
  assert (Hsweep : combine_sweep (first :: rest) output_path w1 = (w2, r)).
  { unfold combine_sweep. cbv zeta.
    rewrite (bindIO_returned _ _ w1 w1' tt).
    - exact Hrun.
    - unfold rasterio_open_w.
      now rewrite bool_decide_eq_false_2 by exact Hrw. }
  destruct (combine_dist_rasters_after_open path paths output_path w w2 (first :: rest)
              r Hopen Hsweep) as (w' & Hrun' & Hfiles' & _).
  exists w', ds. split; [exact Hrun'|]. split; [now rewrite Hfiles'|]. auto.
Qed.

End Stack.

Import Example.

Lemma combine_dist_rasters_pixels_witness :
  exists w' ds,
    combine_dist_rasters ("dist_2017.tif" :: ["bs_2007.tif"]) "combined.tif" world
      = (w', Returned (Some "combined.tif")) /\
    stdout w' = stdout world
                ++ [ MsgCombining (length ("dist_2017.tif" :: ["bs_2007.tif"])) "combined.tif";
                     MsgCreatedCombined "combined.tif";
                     MsgElapsed "combine_dist_rasters" ] /\
    files w' !! "combined.tif" = Some ds /\
    profile ds = profile dist_2017 /\
    rectangular (height (profile dist_2017)) (width (profile dist_2017)) (band ds) /\
    forall r c, (r < height (profile dist_2017))%nat -> (c < width (profile dist_2017))%nat ->
      exists stack code,
        Forall2 (fun src x => pixel_at (band src) r c = Some x) (dist_2017 :: [bs_2007]) stack /\
        combine_pixel (default 0 (nodata (profile dist_2017))) stack = Returned code /\
        pixel_at (band ds) r c
        = Some (if covered (block_windows (profile dist_2017)) r c
                then astype (dtype_of (profile dist_2017)) code
                else default 0 (nodata (profile dist_2017))).
Proof.
  apply (combine_dist_rasters_pixels "dist_2017.tif" ["bs_2007.tif"] "combined.tif" world
           dist_2017 [bs_2007]).
  - apply Forall2_cons_2; [reflexivity|].
    apply Forall2_cons_2; [reflexivity|]. apply Forall2_nil_2.
  - vm_compute. intros H. inversion H.
  - intros H. apply elem_of_cons in H as [H|H]; [discriminate|].
    apply elem_of_cons in H as [H|H]; [discriminate|]. now apply elem_of_nil in H.
  - apply Forall_cons_2; [|apply Forall_cons_2; [|apply Forall_nil_2]];
      (split; [reflexivity|]);
      (apply Forall_cons_2; [reflexivity|]; apply Forall_cons_2; [reflexivity|];
       apply Forall_nil_2).
  - apply Forall_cons_2; [|apply Forall_cons_2; [|apply Forall_nil_2]];
      vm_compute; repeat split; lia.
Defined.

Lemma combine_dist_rasters_keeps_codes_witness :
  exists w' ds,
    combine_dist_rasters ("dist_2017.tif" :: []) "combined.tif" world
      = (w', Returned (Some "combined.tif")) /\
    files w' !! "combined.tif" = Some ds /\
    profile ds = profile dist_2017 /\
    Forall (Forall dist_code_or_nodata) (band ds).
Proof.
  apply (combine_dist_rasters_keeps_codes "dist_2017.tif" [] "combined.tif" world
           dist_2017 []).
  - apply Forall2_cons_2; [reflexivity|]. apply Forall2_nil_2.
  - vm_compute. intros H. inversion H.
  - intros H. apply elem_of_cons in H as [H|H]; [discriminate|]. now apply elem_of_nil in H.
  - reflexivity.
  - reflexivity.
  - apply Forall_cons_2; [|apply Forall_nil_2]. simpl.
    apply Forall_cons_2.
    + apply Forall_cons_2; [left; vm_compute; eauto|].
      apply Forall_cons_2; [right; reflexivity|]. apply Forall_nil_2.
    + apply Forall_cons_2; [|apply Forall_nil_2].
      apply Forall_cons_2; [right; reflexivity|].
      apply Forall_cons_2; [left; vm_compute; eauto|]. apply Forall_nil_2.
Defined.

End CombineTilingFacts.

(** ** main.py: running the script again *)

Module MainFacts.
Import Dist Main SweepFacts CombineSweepFacts.

Section Script.
Context {CRS Affine : Type}.
Variable warped_read : WarpedVRT CRS Affine -> Window -> list (list Z).
Variable warped_block_windows : WarpedVRT CRS Affine -> list Window.
Variable update_fm40_raster :
  string -> option string -> string -> string -> IO CRS Affine string.

(** Step 1 converts nothing when every DIST raster is already there. *)
Lemma step1_all_exist (jobs : list Job) (effective_year : Z) (input_fm40 : string)
    (dist_paths skipped : list string) (w : World CRS Affine) :
  Forall (fun job => is_Some (fire_year job)
                     /\ is_Some (files w !! output_dist_path job)) jobs ->
  step1 warped_read warped_block_windows jobs effective_year input_fm40 dist_paths skipped w
  = (w, skipped ++ map output_dist_path jobs,
     Returned (dist_paths ++ map output_dist_path jobs)).
Proof.
  intros Hjobs. revert dist_paths skipped.
  induction Hjobs as [|job jobs [[year Hyear] Hout] _ IH]; intros dist_paths skipped; simpl.
  - now rewrite !app_nil_r.
  - rewrite Hyear. unfold path_exists. rewrite bool_decide_eq_true_2 by exact Hout.
    rewrite IH. now rewrite <- !app_assoc.
Qed.

Lemma path_exists_Some (path : string) (w : World CRS Affine) :
  is_Some (files w !! path) -> path_exists path w = true.
Proof.
  intros Hsome. unfold path_exists. now apply bool_decide_eq_true_2.
Qed.

Lemma path_exists_None (path : string) (w : World CRS Affine) :
  files w !! path = None -> path_exists path w = false.
Proof.
  intros Hnone. unfold path_exists. apply bool_decide_eq_false_2.
  rewrite Hnone. now intros [? [=]].
Qed.

(** Run again when the DIST rasters and the combined raster exist but the
    updated FM40 raster does not, the script stops with [NameError]: step 2
    is skipped, so [combined_dist_raster] was never bound when step 3 wants
    to pass it on.  Nothing is converted, combined or updated; the script
    has only printed that it skips the DIST rasters and the combined one. *)
Theorem main_steps_rerun_NameError (jobs : list Job) (effective_year : Z)
    (input_fm40 ruleset final_output_path updated_fm40_path : string)
    (w : World CRS Affine) :
  Forall (fun job => is_Some (fire_year job)
                     /\ is_Some (files w !! output_dist_path job)) jobs ->
  is_Some (files w !! final_output_path) ->
  files w !! updated_fm40_path = None ->
  main_steps warped_read warped_block_windows update_fm40_raster
             jobs effective_year input_fm40 ruleset final_output_path updated_fm40_path w
  = (w, map output_dist_path jobs ++ [final_output_path],
     Failed (NameError "combined_dist_raster")).
Proof.
  intros Hjobs Hfinal Hupdated. unfold main_steps, step2, step3.
  rewrite (step1_all_exist _ _ _ _ _ _ Hjobs).
  now rewrite (path_exists_Some _ _ Hfinal), (path_exists_None _ _ Hupdated).
Qed.

(** Run again when all three kinds of output exist, the script ends
    normally without calling any of the three functions: it prints one
    'Skipping' line per output and leaves every file as it was. *)
Theorem main_steps_rerun_done (jobs : list Job) (effective_year : Z)
    (input_fm40 ruleset final_output_path updated_fm40_path : string)
    (w : World CRS Affine) :
  Forall (fun job => is_Some (fire_year job)
                     /\ is_Some (files w !! output_dist_path job)) jobs ->
  is_Some (files w !! final_output_path) ->
  is_Some (files w !! updated_fm40_path) ->
  main_steps warped_read warped_block_windows update_fm40_raster
             jobs effective_year input_fm40 ruleset final_output_path updated_fm40_path w
  = (w, map output_dist_path jobs ++ [final_output_path; updated_fm40_path], Done).
Proof.
  intros Hjobs Hfinal Hupdated. unfold main_steps, step2, step3.
  rewrite (step1_all_exist _ _ _ _ _ _ Hjobs).
  rewrite (path_exists_Some _ _ Hfinal), (path_exists_Some _ _ Hupdated).
  cbn [app]. now rewrite <- app_assoc.
Qed.

(** When the DIST rasters exist and the combined raster does not, the
    script always reaches the update and hands it the combined path,
    whether the combination wrote its output or failed inside. *)
Theorem main_steps_update_after_combine (jobs : list Job) (effective_year : Z)
    (input_fm40 ruleset final_output_path updated_fm40_path : string)
    (w : World CRS Affine) :
  jobs <> [] ->
  Forall (fun job => is_Some (fire_year job)
                     /\ is_Some (files w !! output_dist_path job)) jobs ->
  files w !! final_output_path = None ->
  files w !! updated_fm40_path = None ->
  updated_fm40_path <> final_output_path ->
  exists w2,
    combine_dist_rasters (map output_dist_path jobs) final_output_path w
      = (w2, Returned (Some final_output_path)) /\
    main_steps warped_read warped_block_windows update_fm40_raster
               jobs effective_year input_fm40 ruleset final_output_path updated_fm40_path w
    = match update_fm40_raster input_fm40 (Some final_output_path) ruleset
                               updated_fm40_path w2 with
      | (w3, Returned _) => (w3, map output_dist_path jobs, Done)
      | (w3, Raised e) => (w3, map output_dist_path jobs, Failed (FromCall e))
      end.
Proof.
  intros Hne Hjobs Hfinal Hupdated Hdiff.
  assert (Hopen : Forall (fun path => is_Some (files w !! path)) (map output_dist_path jobs)).
  { apply Forall_fmap. eapply Forall_impl; [exact Hjobs|]. now intros j [_ ?]. }
  unfold main_steps, step2, step3. rewrite (step1_all_exist _ _ _ _ _ _ Hjobs).
  change ([] ++ map output_dist_path jobs) with (map output_dist_path jobs).
  rewrite (path_exists_None _ _ Hfinal).
  destruct (map output_dist_path jobs) as [|path paths] eqn:Hpaths.
  { destruct jobs; [congruence|discriminate]. }
  set (w1 := mkWorld (files w) (unwritable w)
                     (stdout w ++ [MsgCombining (length (path :: paths))
                                                final_output_path])).
  destruct (mapIO_rasterio_open (path :: paths) w1 Hopen) as (src_files & Hsrc & _).
  destruct (combine_sweep_frame src_files final_output_path w1)
    as (w2' & r & Hsweep & _ & Hother).
  destruct (combine_dist_rasters_after_open path paths final_output_path w w2' src_files r
              Hsrc Hsweep) as (w2 & Hrun & Hfiles & _).
  exists w2. split; [exact Hrun|].
  rewrite Hrun. rewrite path_exists_None; [reflexivity|].
  rewrite Hfiles, (Hother _ Hdiff). exact Hupdated.
Qed.

End Script.

Import Example ExampleRun.

Lemma main_steps_rerun_NameError_witness :
  main_steps same_grid_read same_grid_windows update_returns_path
             jobs 2018 "fm40.tif" "rules.csv" "dist_combined_2018.tif"
             "fm40_updated_2018.tif" combined_world
  = (combined_world, map output_dist_path jobs ++ ["dist_combined_2018.tif"],
     Failed (NameError "combined_dist_raster")).
Proof.
  apply (main_steps_rerun_NameError same_grid_read same_grid_windows update_returns_path
           jobs 2018 "fm40.tif" "rules.csv" "dist_combined_2018.tif"
           "fm40_updated_2018.tif" combined_world).
  - apply Forall_cons_2; [split; vm_compute; eauto|apply Forall_nil_2].
  - vm_compute; eauto.
  - vm_compute; reflexivity.
Defined.

Lemma main_steps_rerun_done_witness :
  main_steps same_grid_read same_grid_windows update_returns_path
             jobs 2018 "fm40.tif" "rules.csv" "dist_combined_2018.tif"
             "fm40_updated_2018.tif" finished_world
  = (finished_world,
     map output_dist_path jobs ++ ["dist_combined_2018.tif"; "fm40_updated_2018.tif"], Done).
Proof.
  apply (main_steps_rerun_done same_grid_read same_grid_windows update_returns_path
           jobs 2018 "fm40.tif" "rules.csv" "dist_combined_2018.tif"
           "fm40_updated_2018.tif" finished_world).
  - apply Forall_cons_2; [split; vm_compute; eauto|apply Forall_nil_2].
  - vm_compute; eauto.
  - vm_compute; eauto.
Defined.

Lemma main_steps_update_after_combine_witness :
  exists w2,
    combine_dist_rasters (map output_dist_path jobs) "readonly/combined.tif" world
      = (w2, Returned (Some "readonly/combined.tif")) /\
    main_steps same_grid_read same_grid_windows update_returns_path
               jobs 2018 "fm40.tif" "rules.csv" "readonly/combined.tif"
               "fm40_updated_2018.tif" world
    = match update_returns_path "fm40.tif" (Some "readonly/combined.tif") "rules.csv"
                                "fm40_updated_2018.tif" w2 with
      | (w3, Returned _) => (w3, map output_dist_path jobs, Done)
      | (w3, Raised e) => (w3, map output_dist_path jobs, Failed (FromCall e))
      end.
Proof.
  apply (main_steps_update_after_combine same_grid_read same_grid_windows
           update_returns_path jobs 2018 "fm40.tif" "rules.csv" "readonly/combined.tif"
           "fm40_updated_2018.tif" world).
  - discriminate.
  - apply Forall_cons_2; [split; vm_compute; eauto|apply Forall_nil_2].
  - vm_compute; reflexivity.
  - vm_compute; reflexivity.
  - discriminate.
Defined.

End MainFacts.
